(** * convert_models_to_onnx.py: a shallow embedding and its properties

    The script [scripts/convert_models_to_onnx.py] converts YOLOv8 pose
    checkpoints to ONNX files.  It is a sequence of effects: console
    output, calls into the [os], [os.path] and [shutil] modules of the
    Python standard library, and calls into the [ultralytics] package.

    The embedding has four layers:
    - [PosixPath]: the string functions of [posixpath] the script calls;
    - [Disk]: a tree-shaped file system (directories and regular files,
      one device, no symbolic links) with the [os] and [shutil] calls;
    - [Py]: a small monad for Python statements: the disk is threaded,
      console lines and library calls are written to a trace, and an
      exception stops the rest of a block but keeps the disk as it is;
    - [Script]: the two functions of the script, over an arbitrary
      [ultralytics] implementation. *)

From Stdlib Require Import ZArith QArith Ascii String List Lia.
From stdpp Require Import base option list strings gmap fin_maps.

Local Open Scope string_scope.
Local Open Scope list_scope.

(* ===================================================================== *)
(** ** posixpath *)
(* ===================================================================== *)

Module PosixPath.

Definition sep : ascii := "/"%char.
Definition extsep : ascii := "."%char.

(** [s.rfind(c)] for a one-character [c]: the index of the last
    occurrence, [None] where Python answers [-1]. *)
Fixpoint rfind (c : ascii) (s : string) : option nat :=
  match s with
  | EmptyString => None
  | String a r =>
      match rfind c r with
      | Some i => Some (S i)
      | None => if Ascii.eqb a c then Some 0 else None
      end
  end.

(** [s[n:]] and [s[:n]]. *)
Fixpoint drop_str (n : nat) (s : string) : string :=
  match n, s with
  | O, _ => s
  | S _, EmptyString => EmptyString
  | S n', String _ r => drop_str n' r
  end.

Fixpoint take_str (n : nat) (s : string) : string :=
  match n, s with
  | O, _ => EmptyString
  | S _, EmptyString => EmptyString
  | S n', String a r => String a (take_str n' r)
  end.

Definition startswith (c : ascii) (s : string) : bool :=
  match s with
  | String a _ => Ascii.eqb a c
  | EmptyString => false
  end.

Fixpoint endswith (c : ascii) (s : string) : bool :=
  match s with
  | EmptyString => false
  | String a EmptyString => Ascii.eqb a c
  | String _ r => endswith c r
  end.

(** [s.rstrip(c)]. *)
Fixpoint rstrip (c : ascii) (s : string) : string :=
  match s with
  | EmptyString => EmptyString
  | String a r =>
      match rstrip c r with
      | EmptyString => if Ascii.eqb a c then EmptyString else String a EmptyString
      | r' => String a r'
      end
  end.

(** [s.split('/')]. *)
Fixpoint split_sep (s : string) : list string :=
  match s with
  | EmptyString => [EmptyString]
  | String a r =>
      if Ascii.eqb a sep then EmptyString :: split_sep r
      else match split_sep r with
           | h :: t => String a h :: t
           | [] => [String a EmptyString]
           end
  end.

(** [posixpath.basename]:
<<
    i = p.rfind(sep) + 1
    return p[i:]
>> *)
Definition basename (p : string) : string :=
  match rfind sep p with
  | Some i => drop_str (S i) p
  | None => p
  end.

(** Does the slice hold a character other than the dot?  This is the
    [while] loop of [genericpath._splitext], which skips leading dots. *)
Fixpoint has_non_dot (s : string) : bool :=
  match s with
  | EmptyString => false
  | String a r => if Ascii.eqb a extsep then has_non_dot r else true
  end.

(** [posixpath.splitext], that is [genericpath._splitext(p, '/', None, '.')]:
<<
    sepIndex = p.rfind(sep)
    dotIndex = p.rfind(extsep)
    if dotIndex > sepIndex:
        filenameIndex = sepIndex + 1
        while filenameIndex < dotIndex:
            if p[filenameIndex:filenameIndex+1] != extsep:
                return p[:dotIndex], p[dotIndex:]
            filenameIndex += 1
    return p, p[:0]
>> *)
Definition splitext (p : string) : string * string :=
  let first := match rfind sep p with Some i => S i | None => 0 end in
  match rfind extsep p with
  | Some dotIndex =>
      if (first <=? dotIndex)%nat
         && has_non_dot (take_str (dotIndex - first) (drop_str first p))
      then (take_str dotIndex p, drop_str dotIndex p)
      else (p, EmptyString)
  | None => (p, EmptyString)
  end.

(** [posixpath.join(a, b)] with one component:
<<
    path = a
    if b.startswith(sep):          path = b
    elif not path or path.endswith(sep): path += b
    else:                          path += sep + b
>> *)
Definition join (a b : string) : string :=
  if startswith sep b then b
  else if String.eqb a EmptyString || endswith sep a then a ++ b
  else a ++ String sep b.

End PosixPath.

(* ===================================================================== *)
(** ** Exceptions and outcomes *)
(* ===================================================================== *)

(** The exceptions the script can meet.  Those of [os] and [shutil] are
    subclasses of [OSError], hence of [Exception].  What [ultralytics]
    raises is not known: [Foreign] carries whether its class derives from
    [Exception] ([KeyboardInterrupt] and [SystemExit] do not). *)
Inductive exn : Type :=
  | FileNotFoundError (filename : string)
  | FileExistsError (filename : string)
  | NotADirectoryError (filename : string)
  | IsADirectoryError (filename : string)
  | OSError (filename : string)
  | ShutilError (msg : string)
  | Foreign (derives_Exception : bool) (msg : string).

(** [isinstance(e, Exception)] *)
Definition is_Exception (e : exn) : bool :=
  match e with
  | Foreign b _ => b
  | _ => true
  end.

Inductive outcome (A : Type) : Type :=
  | Return (a : A)
  | Raise (e : exn).
Arguments Return {A} a.
Arguments Raise {A} e.

Definition returns {A} (o : outcome A) : bool :=
  match o with Return _ => true | Raise _ => false end.

(* ===================================================================== *)
(** ** The disk *)
(* ===================================================================== *)

Module Disk.
Import PosixPath.

(** A location is the list of names from the root directory; the disk
    maps the locations that exist to what is there.  The root always
    exists and is a directory. *)
Inductive node : Type :=
  | File (data : string)
  | Dir.

#[global] Instance node_eq_dec : EqDecision node.
Proof. solve_decision. Defined.

Abbreviation loc := (list string) (only parsing).
Abbreviation tree := (gmap (list string) node) (only parsing).

Definition node_at (fs : tree) (l : loc) : option node :=
  match l with
  | [] => Some Dir
  | _ => fs !! l
  end.

Definition is_dir_at (fs : tree) (l : loc) : bool :=
  match node_at fs l with
  | Some Dir => true
  | _ => false
  end.

Definition parent (l : loc) : loc := removelast l.

(** One path component, the way the kernel walks it: the empty component
    (a doubled or trailing separator) and [.] stay, [..] goes up. *)
Definition step (cur : loc) (c : string) : loc :=
  if String.eqb c "" || String.eqb c "." then cur
  else if String.eqb c ".." then parent cur
  else cur ++ [c].

(** Every component is looked up in a directory that exists; the last
    one need not exist itself. *)
Fixpoint walk (fs : tree) (cur : loc) (comps : list string) : option loc :=
  match comps with
  | [] => Some cur
  | c :: rest => if is_dir_at fs cur then walk fs (step cur c) rest else None
  end.

(** The same walk without the disk, as [os.path.abspath] does it. *)
Definition lexical (cur : loc) (comps : list string) : loc :=
  fold_left step comps cur.

(** Locations below [s] ([s] included) and their image when [s] is
    renamed to [d]. *)
Definition rebase (s d k : loc) : loc := d ++ drop (length s) k.

Definition move_tree (s d : loc) (fs : tree) : tree :=
  filter (λ kv : list string * node, ¬ s `prefix_of` kv.1) fs
  ∪ kmap (rebase s d) (filter (λ kv : list string * node, s `prefix_of` kv.1) fs).

Definition has_children (fs : tree) (d : loc) : bool :=
  bool_decide (filter (λ kv : list string * node, d `prefix_of` kv.1 ∧ kv.1 ≠ d) fs ≠ ∅).

Section Process.

(** The working directory of the process, where relative paths start. *)
Variable cwd : list string.

Definition start_of (p : string) : loc :=
  if startswith sep p then [] else cwd.

(** Where a path leads, when all the directories on the way exist.  The
    empty path leads nowhere ([ENOENT]). *)
Definition locate (fs : tree) (p : string) : option loc :=
  if String.eqb p "" then None else walk fs (start_of p) (split_sep p).

Definition lookup_path (fs : tree) (p : string) : option node :=
  match locate fs p with
  | Some l => node_at fs l
  | None => None
  end.

(** [os.path.exists], [os.path.isdir], [os.path.isfile] *)
Definition os_path_exists (fs : tree) (p : string) : bool :=
  match lookup_path fs p with Some _ => true | None => false end.

Definition os_path_isdir (fs : tree) (p : string) : bool :=
  match lookup_path fs p with Some Dir => true | _ => false end.

Definition os_path_isfile (fs : tree) (p : string) : bool :=
  match lookup_path fs p with Some (File _) => true | _ => false end.

(** [os.path.getsize]: the length of a regular file; for a directory the
    size the file system reports for it. *)
Variable dir_st_size : Z.

Definition os_path_getsize (fs : tree) (p : string) : outcome Z :=
  match lookup_path fs p with
  | Some (File data) => Return (Z.of_nat (String.length data))
  | Some Dir => Return dir_st_size
  | None => Raise (FileNotFoundError p)
  end.

(** [os.makedirs(name, exist_ok=True)]: walks the components of [name],
    creating every directory that is missing.  A regular file in the way
    is an error; what was created before it stays.  At the end [name]
    must be a directory (the [path.isdir(name)] test of [makedirs]). *)
Fixpoint makedirs_walk (name : string) (fs : tree) (cur : loc)
    (comps : list string) : outcome unit * tree :=
  match comps with
  | [] =>
      if is_dir_at fs cur then (Return tt, fs)
      else (Raise (FileExistsError name), fs)
  | c :: rest =>
      if negb (is_dir_at fs cur) then (Raise (FileNotFoundError name), fs)
      else if String.eqb c "" || String.eqb c "." || String.eqb c ".."
      then makedirs_walk name fs (step cur c) rest
      else
        let next := cur ++ [c] in
        match node_at fs next with
        | Some Dir => makedirs_walk name fs next rest
        | Some (File _) =>
            (Raise (match rest with
                    | [] => FileExistsError name
                    | _ => NotADirectoryError name
                    end), fs)
        | None => makedirs_walk name (<[next := Dir]> fs) next rest
        end
  end.

Definition os_makedirs_exist_ok (name : string) (fs : tree) : outcome unit * tree :=
  if String.eqb name "" then (Raise (FileNotFoundError name), fs)
  else makedirs_walk name fs (start_of name) (split_sep name).

(** [os.rename(src, dst)] on one device. *)
Definition os_rename (src dst : string) (fs : tree) : outcome unit * tree :=
  match locate fs src with
  | None => (Raise (FileNotFoundError src), fs)
  | Some s =>
      match node_at fs s with
      | None => (Raise (FileNotFoundError src), fs)
      | Some what =>
          match locate fs dst with
          | None => (Raise (FileNotFoundError dst), fs)
          | Some d =>
              if bool_decide (s = d) then (Return tt, fs)
              else
                match what, node_at fs d with
                | File data, Some Dir => (Raise (IsADirectoryError dst), fs)
                | File data, _ => (Return tt, <[d := File data]> (delete s fs))
                | Dir, Some (File _) => (Raise (NotADirectoryError dst), fs)
                | Dir, there =>
                    if bool_decide (s `prefix_of` d) then (Raise (OSError dst), fs)
                    else if bool_decide (there = Some Dir) && has_children fs d
                    then (Raise (OSError dst), fs)
                    else (Return tt, move_tree s d fs)
                end
          end
      end
  end.

(** [shutil._basename]: [os.path.basename(path.rstrip(sep))] *)
Definition shutil_basename (path : string) : string :=
  basename (rstrip sep path).

(** [shutil._samefile]: [os.path.samefile], [False] when it raises. *)
Definition shutil_samefile (fs : tree) (src dst : string) : bool :=
  match locate fs src, locate fs dst with
  | Some s, Some d =>
      bool_decide (s = d) && bool_decide (is_Some (node_at fs s))
  | _, _ => false
  end.

(** [shutil._destinsrc]: is [dst] lexically inside [src]? *)
Definition shutil_destinsrc (src dst : string) : bool :=
  bool_decide (lexical (start_of src) (split_sep src)
               `prefix_of` lexical (start_of dst) (split_sep dst)).

(** The [except OSError] branch of [shutil.move], reached when
    [os.rename] raised [e].  A regular file would be copied and then
    unlinked, and on this disk the copy fails wherever the rename did.  A
    directory is rebuilt by [copytree], whose [os.makedirs(dst)] creates
    the missing parents of [dst]. *)
Definition move_fallback (e : exn) (src real_dst : string) (fs : tree)
    : outcome unit * tree :=
  if os_path_isdir fs src then
    if shutil_destinsrc src real_dst
    then (Raise (ShutilError "Cannot move a directory into itself"), fs)
    else if os_path_exists fs real_dst then (Raise (FileExistsError real_dst), fs)
    else
      match os_makedirs_exist_ok real_dst fs with
      | (Return _, fs1) =>
          match locate fs1 src, locate fs1 real_dst with
          | Some s, Some d => (Return tt, move_tree s d fs1)
          | _, _ => (Raise e, fs1)
          end
      | (Raise e1, fs1) => (Raise e1, fs1)
      end
  else (Raise e, fs).

(** The last part of [shutil.move]:
<<
    try:
        os.rename(src, real_dst)
    except OSError:
        ...
    return real_dst
>> *)
Definition rename_or_copy (src real_dst : string) (fs : tree)
    : outcome (option string) * tree :=
  match os_rename src real_dst fs with
  | (Return _, fs1) => (Return (Some real_dst), fs1)
  | (Raise e, _) =>
      match move_fallback e src real_dst fs with
      | (Return _, fs1) => (Return (Some real_dst), fs1)
      | (Raise e1, fs1) => (Raise e1, fs1)
      end
  end.

(** [shutil.move(src, dst)]:
<<
    real_dst = dst
    if os.path.isdir(dst):
        if _samefile(src, dst) and not os.path.islink(src):
            os.rename(src, dst)
            return
        real_dst = os.path.join(dst, _basename(src))
        if os.path.exists(real_dst):
            raise Error("Destination path '%s' already exists" % real_dst)
    try:
        os.rename(src, real_dst)
    except OSError:
        ...
    return real_dst
>> *)
Definition shutil_move (src dst : string) (fs : tree)
    : outcome (option string) * tree :=
  if os_path_isdir fs dst then
    if shutil_samefile fs src dst then
      match os_rename src dst fs with
      | (Return _, fs1) => (Return None, fs1)
      | (Raise e, fs1) => (Raise e, fs1)
      end
    else
      let real_dst := join dst (shutil_basename src) in
      if os_path_exists fs real_dst
      then (Raise (ShutilError "Destination path already exists"), fs)
      else rename_or_copy src real_dst fs
  else rename_or_copy src dst fs.

End Process.

End Disk.

(* ===================================================================== *)
(** ** Python statements *)
(* ===================================================================== *)

Module Py.
Import Disk.

(** The keyword arguments of [model.export(...)]. *)
Record ExportArgs : Type := {
  format : string;
  imgsz : Z;
  dynamic : bool;
  simplify : bool;
  opset : Z
}.

(** The lines the script prints, one constructor for each [print]
    statement; the fields are the values the f-string interpolates.
    [Static] is a line without interpolation, given by its text (less
    the pictograph and the blank line some of them start with). *)
Inductive line : Type :=
  | Rule_after_blank                      (* "\n" + "="*60 *)
  | Converting (model_path : string)      (* Converting {model_path} to ONNX format... *)
  | Rule_before_blank                     (* "="*60 + "\n" *)
  | Successfully_converted (model_name : string)
  | Saved_to (output_path : string)
  | Optimized_note
  | File_size_MB (file_size : Q)          (* File size: {file_size:.2f} MB *)
  | Error_converting (model_path : string) (e : exn)
  | Model_not_found (model_path : string)
  | Title
  | Rule                                  (* "=" * 60 *)
  | Conversion_complete
  | Converted_count (n : nat)             (* Converted {len(converted_models)} model(s): *)
  | Converted_item (path : string)        (*    - {path} *)
  | Static (text : string).

(** What the process does that the outside can see, in order. *)
Inductive event : Type :=
  | Print (l : line)
  | Call_makedirs (name : string)
  | Call_exists (path : string)
  | Call_YOLO (model_path : string)
  | Call_export (args : ExportArgs)
  | Call_move (src dst : string)
  | Call_getsize (path : string).

(** Running a block from a disk: how it ended, the disk it left and what
    it did.  After [Raise] the disk is the one at the point of the
    exception: nothing is rolled back. *)
Record run (A : Type) : Type := {
  result : outcome A;
  disk : tree;
  trace : list event
}.
Arguments result {A} r.
Arguments disk {A} r.
Arguments trace {A} r.

Definition prog (A : Type) : Type := tree -> run A.

Definition ret {A} (a : A) : prog A :=
  fun fs => {| result := Return a; disk := fs; trace := [] |}.

Definition raise {A} (e : exn) : prog A :=
  fun fs => {| result := Raise e; disk := fs; trace := [] |}.

Definition bind {A B} (m : prog A) (k : A -> prog B) : prog B :=
  fun fs =>
    let r := m fs in
    match result r with
    | Return a =>
        let r' := k a (disk r) in
        {| result := result r'; disk := disk r'; trace := trace r ++ trace r' |}
    | Raise e => {| result := Raise e; disk := disk r; trace := trace r |}
    end.

(** [try: body  except Exception as e: handler(e)] *)
Definition try_except_Exception {A} (body : prog A) (handler : exn -> prog A)
    : prog A :=
  fun fs =>
    let r := body fs in
    match result r with
    | Return a => r
    | Raise e =>
        if is_Exception e then
          let r' := handler e (disk r) in
          {| result := result r'; disk := disk r'; trace := trace r ++ trace r' |}
        else r
    end.

(** A run with more events before it. *)
Definition after {A} (t : list event) (r : run A) : run A :=
  {| result := result r; disk := disk r; trace := t ++ trace r |}.

Definition print (l : line) : prog unit :=
  fun fs => {| result := Return tt; disk := fs; trace := [Print l] |}.

(** A call into a library: the event, then its effect on the disk. *)
Definition call {A} (ev : event) (f : tree -> outcome A * tree) : prog A :=
  fun fs => {| result := (f fs).1; disk := (f fs).2; trace := [ev] |}.

End Py.

Declare Scope py_scope.
Delimit Scope py_scope with py.
Notation "x <- m ;; k" := (Py.bind m (fun x => k))
  (at level 100, m at next level, right associativity) : py_scope.
Notation "m ;; k" := (Py.bind m (fun _ => k))
  (at level 100, right associativity) : py_scope.

(* ===================================================================== *)
(** ** The script *)
(* ===================================================================== *)

(** The part of the [ultralytics] package the script uses: the
    constructor [YOLO(path)] and the method [model.export] with keywords.
    Both may read and write the disk and may raise. *)
Record Ultralytics : Type := {
  Model : Type;
  YOLO : string -> Disk.tree -> outcome Model * Disk.tree;
  Model_export : Model -> Py.ExportArgs -> Disk.tree -> outcome string * Disk.tree
}.

Module Script.
Import PosixPath Disk Py.
Local Open Scope py_scope.

Section Script.

Variable cwd : list string.
Variable dir_st_size : Z.
Variable ultralytics : Ultralytics.

Definition os_makedirs (name : string) : prog unit :=
  call (Call_makedirs name) (os_makedirs_exist_ok cwd name).

Definition os_path_exists (path : string) : prog bool :=
  call (Call_exists path) (fun fs => (Return (Disk.os_path_exists cwd fs path), fs)).

Definition os_path_getsize (path : string) : prog Z :=
  call (Call_getsize path) (fun fs => (Disk.os_path_getsize cwd dir_st_size fs path, fs)).

Definition shutil_move (src dst : string) : prog (option string) :=
  call (Call_move src dst) (Disk.shutil_move cwd src dst).

Definition load (model_path : string) : prog (Model ultralytics) :=
  call (Call_YOLO model_path) (YOLO ultralytics model_path).

Definition export (model : Model ultralytics) (args : ExportArgs) : prog string :=
  call (Call_export args) (Model_export ultralytics model args).

(** The keyword arguments of lines 39-45. *)
Definition export_args : ExportArgs :=
  {| format := "onnx"; imgsz := 640; dynamic := true; simplify := true; opset := 12 |}.

(** [convert_yolov8_to_onnx(model_path, output_dir)], lines 16-59. *)
Definition convert_yolov8_to_onnx (model_path output_dir : string) : prog string :=
  print Rule_after_blank ;;
  print (Converting model_path) ;;
  print Rule_before_blank ;;
  os_makedirs output_dir ;;
  model <- load model_path ;;
  let model_name := (splitext (basename model_path)).1 in
  onnx_path <- export model export_args ;;
  let output_path := join output_dir (model_name ++ ".onnx") in
  shutil_move onnx_path output_path ;;
  print (Successfully_converted model_name) ;;
  print (Saved_to output_path) ;;
  print Optimized_note ;;
  size <- os_path_getsize output_path ;;
  (* the float [size / (1024 * 1024)] is this rational exactly for every
     size below 2^53 bytes: dividing by a power of two does not round *)
  let file_size := (inject_Z size / inject_Z (1024 * 1024))%Q in
  print (File_size_MB file_size) ;;
  ret output_path.

(** The default of the parameter [output_dir]. *)
Definition default_output_dir : string := "public/models".

(** The [for] loop of [main], lines 75-83, with the list
    [converted_models] it appends to. *)
Fixpoint for_model_path (models : list string) (converted_models : list string)
    : prog (list string) :=
  match models with
  | [] => ret converted_models
  | model_path :: rest =>
      present <- os_path_exists model_path ;;
      converted_models <-
        (if present : bool then
           try_except_Exception
             (output_path <- convert_yolov8_to_onnx model_path default_output_dir ;;
              ret (converted_models ++ [output_path]))
             (fun e =>
                print (Error_converting model_path e) ;;
                ret converted_models)
         else
           print (Model_not_found model_path) ;;
           ret converted_models) ;;
      for_model_path rest converted_models
  end.

(** [for path in converted_models: print(f"   - {path}")] *)
Fixpoint for_path (converted_models : list string) : prog unit :=
  match converted_models with
  | [] => ret tt
  | path :: rest => print (Converted_item path) ;; for_path rest
  end.

(** The body of [main] for a given list [models]; it hands back
    [converted_models], which [main] itself only prints. *)
Definition run_batch (models : list string) : prog (list string) :=
  print Title ;;
  print Rule ;;
  converted_models <- for_model_path models [] ;;
  print Rule_after_blank ;;
  print Conversion_complete ;;
  print Rule ;;
  print (Converted_count (length converted_models)) ;;
  for_path converted_models ;;
  print (Static "Next steps:") ;;
  print (Static "   1. Models are now in public/models/ directory") ;;
  print (Static "   2. They will be served as static assets by Vite") ;;
  print (Static "   3. Use LocalPoseDetectionService to load and run models") ;;
  print (Static "   4. Models work offline in both web and mobile apps") ;;
  print (Static "Recommended model:") ;;
  print (Static "   - yolov8n-pose.onnx: Best for mobile (smaller, faster)") ;;
  print (Static "   - yolov8s-pose.onnx: Better accuracy (larger, slower)") ;;
  print (Static "") ;;
  ret converted_models.

(** The list [models] of lines 68-71. *)
Definition models : list string :=
  ["api/yolov8n-pose.pt"; "api/yolov8s-pose.pt"].

(** [main()], lines 61-102. *)
Definition main : prog unit :=
  run_batch models ;;
  ret tt.

End Script.

End Script.

(* ===================================================================== *)
(** ** A concrete library and concrete disks *)
(* ===================================================================== *)

(** An implementation of the [Ultralytics] interface to run the script
    on, shaped after the real package: the constructor reads the
    checkpoint, and [export] writes the ONNX file beside the checkpoint,
    under the checkpoint's name with the suffix replaced, and returns
    that path.  A checkpoint whose content is ["corrupt"] cannot be
    loaded; one whose content is ["interrupt"] stands for the user
    pressing Ctrl-C during the load.  It writes nothing over a
    directory. *)
Module Sample.
Import PosixPath Disk Py.

Definition cwd : list string := ["work"].
Definition dir_st_size : Z := 4096.

Definition sample_YOLO (model_path : string) (fs : tree)
    : outcome (string * string) * tree :=
  match lookup_path cwd fs model_path with
  | Some (File data) =>
      if String.eqb data "corrupt" then (Raise (Foreign true "invalid checkpoint"), fs)
      else if String.eqb data "interrupt" then (Raise (Foreign false "KeyboardInterrupt"), fs)
      else (Return (model_path, data), fs)
  | _ => (Raise (Foreign true "checkpoint not found"), fs)
  end.

Definition sample_export (model : string * string) (args : ExportArgs) (fs : tree)
    : outcome string * tree :=
  let f := ((splitext model.1).1 ++ "." ++ format args)%string in
  match locate cwd fs f with
  | Some l =>
      if is_dir_at fs l then (Raise (Foreign true "the export path is a directory"), fs)
      else (Return f, <[l := File ("graph of " ++ model.2)%string]> fs)
  | None => (Raise (Foreign true "cannot write the export"), fs)
  end.

Definition sample : Ultralytics :=
  {| Model := string * string; YOLO := sample_YOLO; Model_export := sample_export |}.

(** A project directory with both checkpoints of [main]. *)
Definition project : tree :=
  list_to_map
    [ (["work"], Dir);
      (["work"; "api"], Dir);
      (["work"; "api"; "yolov8n-pose.pt"], File "nano weights");
      (["work"; "api"; "yolov8s-pose.pt"], File "small weights") ].

(** The same, with the first checkpoint damaged. *)
Definition project_first_corrupt : tree :=
  <[ ["work"; "api"; "yolov8n-pose.pt"] := File "corrupt" ]> project.

(** The same, with the load of the first checkpoint interrupted. *)
Definition project_interrupted : tree :=
  <[ ["work"; "api"; "yolov8n-pose.pt"] := File "interrupt" ]> project.

(** The project without the first checkpoint. *)
Definition project_first_missing : tree :=
  delete ["work"; "api"; "yolov8n-pose.pt"] project.

(** The project where [public] is a regular file, so that
    [public/models] cannot be created. *)
Definition project_public_is_file : tree :=
  <[ ["work"; "public"] := File "notes" ]> project.

(** The project where a directory already has the name of the first
    output file. *)
Definition project_output_is_dir : tree :=
  <[ ["work"; "public"; "models"; "yolov8n-pose.onnx"] := Dir ]>
    (<[ ["work"; "public"; "models"] := Dir ]>
       (<[ ["work"; "public"] := Dir ]> project)).

(** A checkpoint kept in the output directory itself. *)
Definition project_in_place : tree :=
  <[ ["work"; "public"; "models"; "yolov8n-pose.pt"] := File "nano weights" ]>
    (<[ ["work"; "public"; "models"] := Dir ]>
       (<[ ["work"; "public"] := Dir ]> project)).

(** The project with no checkpoint at all. *)
Definition project_bare : tree :=
  list_to_map [ (["work"], Dir); (["work"; "api"], Dir) ].

End Sample.

(* ===================================================================== *)
(** ** Reading a run *)
(* ===================================================================== *)

Module Observe.
Import PosixPath Disk Py.

(** The checkpoints a conversion was started for, from its banner. *)
Definition attempted (t : list event) : list string :=
  omap (fun ev => match ev with Print (Converting p) => Some p | _ => None end) t.

(** The sizes printed. *)
Definition sizes_logged (t : list event) : list Q :=
  omap (fun ev => match ev with Print (File_size_MB q) => Some q | _ => None end) t.

(** The keyword arguments of the exports. *)
Definition exports (t : list event) : list ExportArgs :=
  omap (fun ev => match ev with Call_export a => Some a | _ => None end) t.

(** The path [convert_yolov8_to_onnx] builds in lines 35 and 48. *)
Definition output_path_of (model_path output_dir : string) : string :=
  join output_dir ((splitext (basename model_path)).1 ++ ".onnx").

(** The events of a conversion: up to the creation of the directory,
    and between the move and the size. *)
Definition banner (model_path output_dir : string) : list event :=
  [Print Rule_after_blank; Print (Converting model_path);
   Print Rule_before_blank; Call_makedirs output_dir].

Definition report (model_path output_dir : string) : list event :=
  [Print (Successfully_converted (splitext (basename model_path)).1);
   Print (Saved_to (output_path_of model_path output_dir));
   Print Optimized_note;
   Call_getsize (output_path_of model_path output_dir)].

(** What [main] prints after the loop. *)
Definition summary (converted_models : list string) : list event :=
  [Print Rule_after_blank; Print Conversion_complete; Print Rule;
   Print (Converted_count (length converted_models))]
  ++ map (fun path => Print (Converted_item path)) converted_models
  ++ [Print (Static "Next steps:");
      Print (Static "   1. Models are now in public/models/ directory");
      Print (Static "   2. They will be served as static assets by Vite");
      Print (Static "   3. Use LocalPoseDetectionService to load and run models");
      Print (Static "   4. Models work offline in both web and mobile apps");
      Print (Static "Recommended model:");
      Print (Static "   - yolov8n-pose.onnx: Best for mobile (smaller, faster)");
      Print (Static "   - yolov8s-pose.onnx: Better accuracy (larger, slower)");
      Print (Static "")].

(** The disk after a regular file went from [s] to [d]. *)
Definition file_moved (s d : list string) (data : string) (fs : tree) : tree :=
  <[d := File data]> (delete s fs).

(** A library call keeps directories when every directory of the disk
    it starts from is still one on the disk it leaves. *)
Definition keeps_dirs (before after : tree) : Prop :=
  forall l, is_dir_at before l = true -> is_dir_at after l = true.

Section Observe.

Variable cwd : list string.
Variable dir_st_size : Z.
Variable ultralytics : Ultralytics.

(** The path the exporter returned and the disk it left, when the
    conversion gets as far as the move. *)
Definition exported (model_path output_dir : string) (fs : tree)
    : option (string * tree) :=
  match os_makedirs_exist_ok cwd output_dir fs with
  | (Raise _, _) => None
  | (Return _, fs0) =>
      match YOLO ultralytics model_path fs0 with
      | (Raise _, _) => None
      | (Return model, fs1) =>
          match Model_export ultralytics model Script.export_args fs1 with
          | (Raise _, _) => None
          | (Return onnx_path, fs2) => Some (onnx_path, fs2)
          end
      end
  end.


End Observe.

End Observe.

(* ===================================================================== *)
(** ** Counting what a batch did *)
(* ===================================================================== *)

Module Account.
Import PosixPath Disk Py.

(** The paths [os.path.exists] was asked about. *)
Definition exists_checked (t : list event) : list string :=
  omap (fun ev => match ev with Call_exists p => Some p | _ => None end) t.

(** The checkpoints reported as not found. *)
Definition not_found (t : list event) : list string :=
  omap (fun ev => match ev with Print (Model_not_found p) => Some p | _ => None end) t.

(** The checkpoints reported as failed, with the exception printed. *)
Definition errors (t : list event) : list (string * exn) :=
  omap (fun ev => match ev with
                  | Print (Error_converting p e) => Some (p, e)
                  | _ => None
                  end) t.

(** The counts and the paths of the summary. *)
Definition counts (t : list event) : list nat :=
  omap (fun ev => match ev with Print (Converted_count n) => Some n | _ => None end) t.

Definition items (t : list event) : list string :=
  omap (fun ev => match ev with Print (Converted_item p) => Some p | _ => None end) t.

(** The checkpoints handed to [YOLO]. *)
Definition loads (t : list event) : list string :=
  omap (fun ev => match ev with Call_YOLO p => Some p | _ => None end) t.

(** The library calls, without the console lines. *)
Definition calls (t : list event) : list event :=
  omap (fun ev => match ev with Print _ => None | _ => Some ev end) t.

(** [public/models] cannot be created from the working directory: the
    working directory is gone, or one of the two names is taken by a
    regular file. *)
Definition blocked (cwd : list string) (fs : tree) : Prop :=
  is_dir_at fs cwd = false
  \/ (exists data, fs !! (cwd ++ ["public"]) = Some (File data))
  \/ (exists data, fs !! (cwd ++ ["public"; "models"]) = Some (File data)).

(** The places [os.makedirs] comes to on its way through the components
    of a path, one for each component. *)
Fixpoint on_the_way (cur : list string) (comps : list string)
    : list (list string) :=
  match comps with
  | [] => []
  | c :: rest => step cur c :: on_the_way (step cur c) rest
  end.

Section Rerun.

Variable cwd : list string.
Variable dir_st_size : Z.
Variable ultralytics : Ultralytics.

(** The disk of a run that follows a run: every listed checkpoint is
    present when its turn comes, the library exports it to a regular
    file, and a regular file is at its output path when the move is
    made. *)
Fixpoint replaces_all (models : list string) (fs : tree) : bool :=
  match models with
  | [] => true
  | model_path :: rest =>
      os_path_exists cwd fs model_path
      && match Observe.exported cwd ultralytics model_path
                 Script.default_output_dir fs with
         | Some (onnx_path, fs2) =>
             os_path_isfile cwd fs2 onnx_path
             && os_path_isfile cwd fs2
                  (Observe.output_path_of model_path Script.default_output_dir)
             && replaces_all rest
                  (disk (Script.convert_yolov8_to_onnx cwd dir_st_size ultralytics
                           model_path Script.default_output_dir fs))
         | None => false
         end
  end.

End Rerun.

End Account.

(* ===================================================================== *)
(** ** The shape of a run of the script *)
(* ===================================================================== *)

Import PosixPath Disk Py Observe.
Import Account.

Lemma after_nil {A : Type} (r : run A) : after [] r = r.
Proof. by destruct r. Qed.

Lemma after_after {A : Type} (t1 t2 : list event) (r : run A) :
  after t1 (after t2 r) = after (t1 ++ t2) r.
Proof. unfold after; simpl. by rewrite app_assoc. Qed.

Lemma bind_run {A B : Type} (m : prog A) (k : A -> prog B) fs :
  bind m k fs =
  match result (m fs) with
  | Return a => after (trace (m fs)) (k a (disk (m fs)))
  | Raise e => {| result := Raise e; disk := disk (m fs); trace := trace (m fs) |}
  end.
Proof. unfold bind, after. by destruct (result (m fs)). Qed.

Lemma bind_print {B : Type} (l : line) (k : unit -> prog B) fs :
  bind (print l) k fs = after [Print l] (k tt fs).
Proof. reflexivity. Qed.

Lemma bind_call {A B : Type} (ev : event) (f : tree -> outcome A * tree) (k : A -> prog B) fs :
  bind (call ev f) k fs =
  match (f fs).1 with
  | Return a => after [ev] (k a (f fs).2)
  | Raise e => {| result := Raise e; disk := (f fs).2; trace := [ev] |}
  end.
Proof. unfold bind, call, after; simpl. by destruct (f fs).1. Qed.

Section ScriptShape.

Variable cwd : list string.
Variable dir_st_size : Z.
Variable ultralytics : Ultralytics.

Local Abbreviation convert := (Script.convert_yolov8_to_onnx cwd dir_st_size ultralytics).
Local Abbreviation for_model_path := (Script.for_model_path cwd dir_st_size ultralytics).
Local Abbreviation run_batch := (Script.run_batch cwd dir_st_size ultralytics).
Local Abbreviation main := (Script.main cwd dir_st_size ultralytics).
Local Abbreviation makedirs := (os_makedirs_exist_ok cwd).
Local Abbreviation getsize := (Disk.os_path_getsize cwd dir_st_size).
Local Abbreviation move := (Disk.shutil_move cwd).

(** A conversion is the chain of its five library calls; the first that
    raises ends it. *)
Lemma convert_cases model_path output_dir fs :
  convert model_path output_dir fs =
  let out := output_path_of model_path output_dir in
  let t0 := banner model_path output_dir in
  let mk := makedirs output_dir fs in
  match mk.1 with
  | Raise e => {| result := Raise e; disk := mk.2; trace := t0 |}
  | Return _ =>
  let ld := YOLO ultralytics model_path mk.2 in
  match ld.1 with
  | Raise e => {| result := Raise e; disk := ld.2; trace := t0 ++ [Call_YOLO model_path] |}
  | Return model =>
  let t1 := t0 ++ [Call_YOLO model_path; Call_export Script.export_args] in
  let ex := Model_export ultralytics model Script.export_args ld.2 in
  match ex.1 with
  | Raise e => {| result := Raise e; disk := ex.2; trace := t1 |}
  | Return onnx_path =>
  let t2 := t1 ++ [Call_move onnx_path out] in
  let mv := move onnx_path out ex.2 in
  match mv.1 with
  | Raise e => {| result := Raise e; disk := mv.2; trace := t2 |}
  | Return _ =>
  let t3 := t2 ++ report model_path output_dir in
  match getsize mv.2 out with
  | Raise e => {| result := Raise e; disk := mv.2; trace := t3 |}
  | Return size =>
      {| result := Return out; disk := mv.2;
         trace := t3 ++ [Print (File_size_MB (inject_Z size / inject_Z (1024 * 1024)))] |}
  end end end end end.
Proof.
  unfold Script.convert_yolov8_to_onnx.
  rewrite !bind_print.
  unfold Script.os_makedirs, Script.load, Script.export, Script.shutil_move,
    Script.os_path_getsize.
  rewrite bind_call. cbv zeta.
  destruct (makedirs output_dir fs) as [[[]|e0] fs0]; simpl; [|reflexivity].
  rewrite bind_call.
  destruct (YOLO ultralytics model_path fs0) as [[model|e1] fs1]; simpl; [|reflexivity].
  rewrite bind_call.
  destruct (Model_export ultralytics model Script.export_args fs1)
    as [[onnx_path|e2] fs2]; simpl; [|reflexivity].
  rewrite bind_call. fold (output_path_of model_path output_dir).
  destruct (move onnx_path _ fs2) as [[mv|e3] fs3]; simpl; [|reflexivity].
  rewrite !bind_print, bind_call. simpl.
  destruct (getsize fs3 _) as [size|e4]; simpl; reflexivity.
Qed.


Lemma for_path_run (l : list string) fs :
  Script.for_path l fs =
  {| result := Return tt; disk := fs;
     trace := map (fun path => Print (Converted_item path)) l |}.
Proof.
  induction l as [|path l IH]; [reflexivity|].
  simpl. rewrite bind_print, IH. reflexivity.
Qed.

(** One turn of the loop of [main]. *)
Lemma for_model_path_cons p rest acc fs :
  for_model_path (p :: rest) acc fs =
  if os_path_exists cwd fs p then
    let c := convert p Script.default_output_dir fs in
    match result c with
    | Return out =>
        after (Call_exists p :: trace c) (for_model_path rest (acc ++ [out]) (disk c))
    | Raise e =>
        if is_Exception e then
          after (Call_exists p :: trace c ++ [Print (Error_converting p e)])
                (for_model_path rest acc (disk c))
        else {| result := Raise e; disk := disk c; trace := Call_exists p :: trace c |}
    end
  else after [Call_exists p; Print (Model_not_found p)] (for_model_path rest acc fs).
Proof.
  cbn [Script.for_model_path]. unfold Script.os_path_exists.
  rewrite bind_call. cbn [fst snd].
  destruct (os_path_exists cwd fs p).
  - cbv zeta. generalize (for_model_path rest).
    generalize (convert p Script.default_output_dir).
    intros c k. unfold bind, try_except_Exception, ret, print, after.
    destruct (c fs) as [[out|e] d t]; cbn.
    + rewrite ?app_nil_r. reflexivity.
    + destruct (is_Exception e); cbn; [|reflexivity].
      rewrite <- ?app_assoc. reflexivity.
  - unfold bind, ret, print, after. cbn. reflexivity.
Qed.

Lemma run_batch_cases models fs :
  run_batch models fs =
  let r := for_model_path models [] fs in
  match result r with
  | Return l =>
      {| result := Return l; disk := disk r;
         trace := [Print Title; Print Rule] ++ trace r ++ summary l |}
  | Raise e =>
      {| result := Raise e; disk := disk r;
         trace := [Print Title; Print Rule] ++ trace r |}
  end.
Proof.
  unfold Script.run_batch. rewrite !bind_print, bind_run. cbv zeta.
  destruct (result (for_model_path models [] fs)) as [l|e]; [|reflexivity].
  rewrite !bind_print, bind_run, for_path_run. cbn [result disk trace].
  rewrite !bind_print, !after_after. unfold ret, after, summary.
  cbn [result disk trace]. f_equal.
  rewrite app_nil_r, <- !app_assoc. reflexivity.
Qed.

End ScriptShape.

(** Taking a conversion apart, stage by stage. *)
Ltac stages :=
  rewrite ?convert_cases in *; cbv zeta in *;
  repeat match goal with
    | |- context [match ?x with Return _ => _ | Raise _ => _ end] =>
        let E := fresh "Stage" in destruct x eqn:E
    | H : context [match ?x with Return _ => _ | Raise _ => _ end] |- _ =>
        let E := fresh "Stage" in destruct x eqn:E
    end;
  cbn [result disk trace] in *.

Section ScriptFacts.

Variable cwd : list string.
Variable dir_st_size : Z.
Variable ultralytics : Ultralytics.

Local Abbreviation convert := (Script.convert_yolov8_to_onnx cwd dir_st_size ultralytics).
Local Abbreviation for_model_path := (Script.for_model_path cwd dir_st_size ultralytics).
Local Abbreviation run_batch := (Script.run_batch cwd dir_st_size ultralytics).
Local Abbreviation main := (Script.main cwd dir_st_size ultralytics).
Local Abbreviation makedirs := (os_makedirs_exist_ok cwd).
Local Abbreviation getsize := (Disk.os_path_getsize cwd dir_st_size).
Local Abbreviation move := (Disk.shutil_move cwd).


Lemma convert_result model_path output_dir fs out :
  result (convert model_path output_dir fs) = Return out ->
  out = output_path_of model_path output_dir.
Proof. intros H. stages; congruence. Qed.

Lemma convert_raise_sizes model_path output_dir fs e :
  result (convert model_path output_dir fs) = Raise e ->
  sizes_logged (trace (convert model_path output_dir fs)) = [].
Proof. intros H. stages; try discriminate; reflexivity. Qed.

Lemma convert_return_sizes model_path output_dir fs out :
  result (convert model_path output_dir fs) = Return out ->
  exists size,
    getsize (disk (convert model_path output_dir fs)) out = Return size
    /\ sizes_logged (trace (convert model_path output_dir fs))
       = [(inject_Z size / inject_Z (1024 * 1024))%Q]
    /\ last (trace (convert model_path output_dir fs))
       = Some (Print (File_size_MB (inject_Z size / inject_Z (1024 * 1024)))).
Proof.
  intros H. stages; try discriminate.
  injection H as <-. eexists; split; [eassumption|]. split; reflexivity.
Qed.

Lemma attempted_app t1 t2 : attempted (t1 ++ t2) = attempted t1 ++ attempted t2.
Proof. apply omap_app. Qed.

Lemma sizes_logged_app t1 t2 :
  sizes_logged (t1 ++ t2) = sizes_logged t1 ++ sizes_logged t2.
Proof. apply omap_app. Qed.

Lemma attempted_summary l : attempted (summary l) = [].
Proof.
  unfold summary. rewrite !attempted_app. cbn.
  induction l as [|x l IH]; [reflexivity | exact IH].
Qed.

Lemma sizes_logged_summary l : sizes_logged (summary l) = [].
Proof.
  unfold summary. rewrite !sizes_logged_app. cbn.
  induction l as [|x l IH]; [reflexivity | exact IH].
Qed.



(** C4. Whatever the checkpoint, the output directory and the disk, an
    export that a conversion performs has the keyword arguments
    format "onnx", image size 640, dynamic, simplify and opset 12, and
    nothing else; when the directory can be created and the checkpoint
    loads, the conversion performs exactly one export. *)
Theorem export_arguments_fixed model_path output_dir fs :
  (forall args, In args (exports (trace (convert model_path output_dir fs))) ->
     args = {| format := "onnx"; imgsz := 640; dynamic := true;
               simplify := true; opset := 12 |})
  /\ (returns (makedirs output_dir fs).1 = true ->
      returns (YOLO ultralytics model_path (makedirs output_dir fs).2).1 = true ->
      exports (trace (convert model_path output_dir fs))
      = [ {| format := "onnx"; imgsz := 640; dynamic := true;
             simplify := true; opset := 12 |} ]).
Proof.
  split.
  - intros args Hin.
    stages; cbn in Hin; unfold Script.export_args in Hin; intuition congruence.
  - intros Hmk Hld. stages; try discriminate; reflexivity.
Qed.

End ScriptFacts.

(* ===================================================================== *)
(** ** Facts about the disk *)
(* ===================================================================== *)

Section DiskFacts.

Variable cwd : list string.

Local Abbreviation makedirs := (os_makedirs_exist_ok cwd).
Local Abbreviation locate := (Disk.locate cwd).
Local Abbreviation lookup_path := (Disk.lookup_path cwd).

Lemma is_dir_at_node fs l : is_dir_at fs l = true <-> node_at fs l = Some Dir.
Proof.
  unfold is_dir_at. destruct (node_at fs l) as [[data|]|]; split; congruence.
Qed.

Lemma node_at_lookup (fs : tree) l x :
  node_at fs l = Some x -> l <> [] -> fs !! l = Some x.
Proof. destruct l; [congruence | done]. Qed.

Lemma node_at_file_not_root (fs : tree) l data :
  node_at fs l = Some (File data) -> l <> [].
Proof. destruct l; [discriminate | done]. Qed.

Lemma isdir_locate fs p :
  os_path_isdir cwd fs p = true <->
  exists l, locate fs p = Some l /\ is_dir_at fs l = true.
Proof.
  unfold os_path_isdir, Disk.lookup_path, is_dir_at. split.
  - destruct (locate fs p) as [l|]; [|discriminate]. intros H. exists l. done.
  - intros (l & -> & H). done.
Qed.

(** A walk only asks whether the places it passes are directories. *)
Lemma walk_keeps fs fs' comps : forall cur l,
  keeps_dirs fs fs' ->
  walk fs cur comps = Some l -> walk fs' cur comps = Some l.
Proof.
  induction comps as [|c rest IH]; intros cur l Hk; cbn; [done|].
  destruct (is_dir_at fs cur) eqn:Hd; [|discriminate].
  rewrite (Hk _ Hd). by apply IH.
Qed.

Lemma locate_keeps fs fs' p l :
  keeps_dirs fs fs' -> locate fs p = Some l -> locate fs' p = Some l.
Proof.
  unfold Disk.locate. destruct (String.eqb p ""); [done|]. apply walk_keeps.
Qed.

Lemma isdir_keeps fs fs' p :
  keeps_dirs fs fs' ->
  os_path_isdir cwd fs p = true -> os_path_isdir cwd fs' p = true.
Proof.
  intros Hk. rewrite !isdir_locate. intros (l & Hl & Hd).
  exists l. split; [by eapply locate_keeps | by apply Hk].
Qed.

Lemma keeps_entries_dirs (fs fs' : tree) :
  (forall l x, fs !! l = Some x -> fs' !! l = Some x) -> keeps_dirs fs fs'.
Proof.
  intros H l. rewrite !is_dir_at_node. destruct l; [done|]. apply H.
Qed.

Lemma step_name cur c :
  String.eqb c "" || String.eqb c "." || String.eqb c ".." = false ->
  step cur c = cur ++ [c].
Proof.
  unfold step. intros H.
  destruct (String.eqb c ""), (String.eqb c "."), (String.eqb c ".."); done.
Qed.

(** [os.makedirs] removes and replaces nothing. *)
Lemma makedirs_walk_keeps name comps : forall fs cur,
  forall l x, fs !! l = Some x -> (makedirs_walk name fs cur comps).2 !! l = Some x.
Proof.
  induction comps as [|c rest IH]; intros fs cur l x Hl; cbn.
  - by destruct (is_dir_at fs cur).
  - destruct (is_dir_at fs cur); cbn; [|done].
    destruct (String.eqb c "" || String.eqb c "." || String.eqb c "..");
      [by apply IH|].
    destruct (node_at fs (cur ++ [c])) as [[data|]|] eqn:Hn; [done | by apply IH |].
    apply IH. rewrite lookup_insert_ne; [done|].
    intros <-. destruct cur; cbn in *; congruence.
Qed.

Lemma makedirs_walk_raises name comps : forall fs cur e,
  (makedirs_walk name fs cur comps).1 = Raise e -> is_Exception e = true.
Proof.
  induction comps as [|c rest IH]; intros fs cur e; cbn.
  - destruct (is_dir_at fs cur); cbn; [discriminate | by intros [= <-]].
  - destruct (is_dir_at fs cur); cbn; [|by intros [= <-]].
    destruct (String.eqb c "" || String.eqb c "." || String.eqb c "..");
      [by apply IH|].
    destruct (node_at fs (cur ++ [c])) as [[data|]|]; [|by apply IH..].
    cbn. destruct rest; by intros [= <-].
Qed.

(** When it returns, the path leads to a directory. *)
Lemma makedirs_walk_returns name comps : forall fs cur u,
  (makedirs_walk name fs cur comps).1 = Return u ->
  exists l, walk (makedirs_walk name fs cur comps).2 cur comps = Some l
            /\ is_dir_at (makedirs_walk name fs cur comps).2 l = true.
Proof.
  induction comps as [|c rest IH]; intros fs cur u; cbn.
  - destruct (is_dir_at fs cur) eqn:Hd; cbn; [|discriminate]. eauto.
  - destruct (is_dir_at fs cur) eqn:Hd; cbn; [|discriminate].
    assert (Hcur : forall fs1 cur1, is_dir_at (makedirs_walk name fs1 cur1 rest).2 cur = true
                    \/ is_dir_at fs1 cur = false).
    { intros fs1 cur1. destruct (is_dir_at fs1 cur) eqn:H1; [left | by right].
      revert H1. apply keeps_entries_dirs. intros. by apply makedirs_walk_keeps. }
    destruct (String.eqb c "" || String.eqb c "." || String.eqb c "..") eqn:Hdots.
    + intros H. destruct (Hcur fs (step cur c)) as [->|]; [|congruence].
      by eapply IH.
    + rewrite (step_name _ _ Hdots).
      destruct (node_at fs (cur ++ [c])) as [[data|]|] eqn:Hn; [discriminate | |].
      * intros H. destruct (Hcur fs (cur ++ [c])) as [->|]; [|congruence].
        by eapply IH.
      * intros H.
        destruct (Hcur (<[cur ++ [c] := Dir]> fs) (cur ++ [c])) as [->|Hno];
          [by eapply IH|].
        exfalso. revert Hno Hd. rewrite <- not_true_iff_false, !is_dir_at_node.
        intros Hno Hd. apply Hno. destruct cur as [|a cur]; [done|].
        cbn in *. rewrite lookup_insert_ne; [done|].
        intros Heq. apply (f_equal length) in Heq. cbn in Heq.
        rewrite length_app in Heq. cbn in Heq. lia.
Qed.

(** On a directory that exists it changes nothing. *)
Lemma makedirs_walk_idem name comps : forall fs cur l,
  walk fs cur comps = Some l -> is_dir_at fs l = true ->
  makedirs_walk name fs cur comps = (Return tt, fs).
Proof.
  induction comps as [|c rest IH]; intros fs cur l; cbn.
  - intros [= ->] ->. done.
  - destruct (is_dir_at fs cur) eqn:Hd; cbn; [|discriminate].
    intros Hw Hl.
    destruct (String.eqb c "" || String.eqb c "." || String.eqb c "..") eqn:Hdots;
      [by eapply IH|].
    rewrite (step_name _ _ Hdots) in Hw.
    assert (Hnext : node_at fs (cur ++ [c]) = Some Dir).
    { apply is_dir_at_node. destruct rest as [|c' rest']; cbn in Hw.
      - by injection Hw as ->.
      - by destruct (is_dir_at fs (cur ++ [c])). }
    rewrite Hnext. by eapply IH.
Qed.

Lemma makedirs_raises name fs e :
  (makedirs name fs).1 = Raise e -> is_Exception e = true.
Proof.
  unfold os_makedirs_exist_ok. destruct (String.eqb name "").
  - by intros [= <-].
  - apply makedirs_walk_raises.
Qed.

Lemma makedirs_keeps name fs : keeps_dirs fs (makedirs name fs).2.
Proof.
  apply keeps_entries_dirs. intros l x Hl. unfold os_makedirs_exist_ok.
  destruct (String.eqb name ""); [done|]. by apply makedirs_walk_keeps.
Qed.

Lemma makedirs_returns name fs u :
  (makedirs name fs).1 = Return u ->
  os_path_isdir cwd (makedirs name fs).2 name = true.
Proof.
  unfold os_makedirs_exist_ok. rewrite isdir_locate. unfold Disk.locate.
  destruct (String.eqb name ""); [discriminate|]. apply makedirs_walk_returns.
Qed.

Lemma makedirs_idem name fs :
  os_path_isdir cwd fs name = true -> makedirs name fs = (Return tt, fs).
Proof.
  rewrite isdir_locate. unfold os_makedirs_exist_ok, Disk.locate.
  destruct (String.eqb name ""); [by intros (l & [=] & _)|].
  intros (l & Hw & Hd). by eapply makedirs_walk_idem.
Qed.

Lemma node_at_snoc_2 (fs : tree) (l : list string) (c1 c2 : string) :
  node_at fs (l ++ [c1; c2]) = fs !! (l ++ [c1; c2]).
Proof. by destruct l. Qed.

Lemma node_at_snoc (fs : tree) (l : list string) (c : string) :
  node_at fs (l ++ [c]) = fs !! (l ++ [c]).
Proof. by destruct l. Qed.

Lemma is_dir_at_insert_dir (fs : tree) (k l : list string) :
  is_dir_at fs l = true -> is_dir_at (<[k := Dir]> fs) l = true.
Proof.
  rewrite !is_dir_at_node. destruct l as [|c l]; [done|]. cbn.
  destruct (decide (k = c :: l)) as [->|Hne].
  - by rewrite lookup_insert_eq.
  - by rewrite lookup_insert_ne.
Qed.

(** The directory of [main]: [public] and [public/models] are created
    where they are missing, whenever neither name is taken by a regular
    file. *)
Lemma makedirs_public_models fs :
  is_dir_at fs cwd = true ->
  (forall data, fs !! (cwd ++ ["public"]) <> Some (File data)) ->
  (forall data, fs !! (cwd ++ ["public"; "models"]) <> Some (File data)) ->
  (makedirs "public/models" fs).1 = Return tt
  /\ is_dir_at (makedirs "public/models" fs).2 (cwd ++ ["public"]) = true
  /\ is_dir_at (makedirs "public/models" fs).2 (cwd ++ ["public"; "models"]) = true.
Proof.
  intros Hcwd Hpublic Hmodels.
  assert (Hlen : cwd ++ ["public"] <> cwd ++ ["public"; "models"]).
  { intros Heq. apply (f_equal length) in Heq. rewrite !length_app in Heq.
    cbn in Heq. lia. }
  assert (Hlast : forall fs1 : tree,
            is_dir_at fs1 (cwd ++ ["public"]) = true ->
            (forall data, fs1 !! (cwd ++ ["public"; "models"]) <> Some (File data)) ->
            (makedirs_walk "public/models" fs1 (cwd ++ ["public"]) ["models"]).1
            = Return tt
            /\ is_dir_at (makedirs_walk "public/models" fs1 (cwd ++ ["public"])
                            ["models"]).2 (cwd ++ ["public"]) = true
            /\ is_dir_at (makedirs_walk "public/models" fs1 (cwd ++ ["public"])
                            ["models"]).2 (cwd ++ ["public"; "models"]) = true).
  { intros fs1 Hp Hm. cbn. rewrite Hp. cbn.
    rewrite <- app_assoc. cbn [app]. rewrite node_at_snoc_2.
    destruct (fs1 !! (cwd ++ ["public"; "models"])) as [[data|]|] eqn:Hn.
    - by destruct (Hm data).
    - assert (Hd : is_dir_at fs1 (cwd ++ ["public"; "models"]) = true).
      { apply is_dir_at_node. by rewrite node_at_snoc_2. }
      rewrite Hd. done.
    - assert (Hd : is_dir_at (<[cwd ++ ["public"; "models"] := Dir]> fs1)
                     (cwd ++ ["public"; "models"]) = true).
      { apply is_dir_at_node. rewrite node_at_snoc_2. by rewrite lookup_insert_eq. }
      rewrite Hd. cbn. split; [done|]. split; [|done].
      by apply is_dir_at_insert_dir. }
  unfold os_makedirs_exist_ok, start_of. cbn. rewrite Hcwd. cbn.
  rewrite node_at_snoc.
  destruct (fs !! (cwd ++ ["public"])) as [[data|]|] eqn:Hn.
  - by destruct (Hpublic data).
  - apply Hlast; [|done]. apply is_dir_at_node. by rewrite node_at_snoc.
  - apply Hlast.
    + apply is_dir_at_node. rewrite node_at_snoc. by rewrite lookup_insert_eq.
    + intros data. by rewrite lookup_insert_ne.
Qed.

(** Parents are created as needed, for any path without [..]: when the
    walk starts in a directory and no place on its way is taken by a
    regular file, [os.makedirs] returns and every place on the way is a
    directory afterwards. *)
Lemma makedirs_walk_clear name comps : forall fs cur,
  is_dir_at fs cur = true ->
  ~ In ".." comps ->
  (forall l data, In l (on_the_way cur comps) -> node_at fs l <> Some (File data)) ->
  (makedirs_walk name fs cur comps).1 = Return tt
  /\ forall l, In l (cur :: on_the_way cur comps) ->
       is_dir_at (makedirs_walk name fs cur comps).2 l = true.
Proof.
  induction comps as [|c rest IH]; intros fs cur Hcur Hup Hclear;
    cbn [makedirs_walk on_the_way] in *; rewrite Hcur.
  - split; [done|]. by intros l [<-|[]].
  - cbn [negb].
    assert (Hc : c <> "..") by (intros ->; apply Hup; by left).
    assert (Hrest : ~ In ".." rest) by (intros Hin; apply Hup; by right).
    destruct (String.eqb c "" || String.eqb c "." || String.eqb c "..") eqn:Hdots.
    + assert (Hstep : step cur c = cur).
      { unfold step. destruct (String.eqb c ""), (String.eqb c "."); try done.
        cbn in Hdots. by apply String.eqb_eq in Hdots. }
      rewrite Hstep in *.
      destruct (IH fs cur Hcur Hrest) as [Hr Hall].
      { intros l data Hl. apply Hclear. by right. }
      split; [done|]. intros l [<-|[<-|Hl]]; apply Hall; [by left | by left | by right].
    + rewrite (step_name _ _ Hdots) in *.
      destruct (node_at fs (cur ++ [c])) as [[data|]|] eqn:Hn.
      * exfalso. eapply Hclear; [by left | done].
      * destruct (IH fs (cur ++ [c])) as [Hr Hall]; [by apply is_dir_at_node | done | |].
        { intros l data Hl. apply Hclear. by right. }
        split; [done|]. intros l [<-|Hl]; [|by apply Hall].
        eapply keeps_entries_dirs; [|exact Hcur]. apply makedirs_walk_keeps.
      * destruct (IH (<[cur ++ [c] := Dir]> fs) (cur ++ [c])) as [Hr Hall]; [|done| |].
        { apply is_dir_at_node. rewrite node_at_snoc. by rewrite lookup_insert_eq. }
        { intros l data Hl Hnode. destruct l as [|a l]; [discriminate|].
          cbn in Hnode. destruct (decide (cur ++ [c] = a :: l)) as [Heq|Hne].
          - rewrite Heq, lookup_insert_eq in Hnode. discriminate.
          - rewrite lookup_insert_ne in Hnode by done.
            eapply (Hclear (a :: l)); [by right | exact Hnode]. }
        split; [done|]. intros l [<-|Hl]; [|by apply Hall].
        eapply keeps_entries_dirs; [apply makedirs_walk_keeps|].
        by apply is_dir_at_insert_dir.
Qed.

Lemma makedirs_clear name fs :
  name <> "" ->
  is_dir_at fs (start_of cwd name) = true ->
  ~ In ".." (split_sep name) ->
  (forall l data, In l (on_the_way (start_of cwd name) (split_sep name)) ->
     node_at fs l <> Some (File data)) ->
  (makedirs name fs).1 = Return tt
  /\ forall l, In l (on_the_way (start_of cwd name) (split_sep name)) ->
       is_dir_at (makedirs name fs).2 l = true.
Proof.
  intros Hname Hstart Hup Hclear. unfold os_makedirs_exist_ok.
  apply String.eqb_neq in Hname. rewrite Hname.
  destruct (makedirs_walk_clear name _ fs _ Hstart Hup Hclear) as [Hr Hall].
  split; [done|]. intros l Hl. apply Hall. by right.
Qed.

End DiskFacts.

Section MoveFacts.

Variable cwd : list string.

Local Abbreviation locate := (Disk.locate cwd).
Local Abbreviation lookup_path := (Disk.lookup_path cwd).
Local Abbreviation move := (Disk.shutil_move cwd).

Lemma isdir_false_locate fs p l :
  os_path_isdir cwd fs p = false -> locate fs p = Some l -> is_dir_at fs l = false.
Proof.
  unfold os_path_isdir, Disk.lookup_path, is_dir_at.
  intros H Hl. by rewrite Hl in H.
Qed.

Lemma os_rename_raises src dst fs e :
  (os_rename cwd src dst fs).1 = Raise e -> is_Exception e = true.
Proof.
  unfold os_rename.
  repeat (case_match; cbn; try discriminate); by intros [= <-].
Qed.

(** Renaming something that is not a directory onto something that is
    not a directory: either it raises and the disk is as before, or a
    regular file went from its place to the place of the target. *)
Lemma rename_or_copy_cases src x fs :
  os_path_isdir cwd fs src = false ->
  os_path_isdir cwd fs x = false ->
  (exists e, (rename_or_copy cwd src x fs).1 = Raise e
             /\ is_Exception e = true
             /\ (rename_or_copy cwd src x fs).2 = fs)
  \/ (exists s d data,
        (rename_or_copy cwd src x fs).1 = Return (Some x)
        /\ locate fs src = Some s
        /\ node_at fs s = Some (File data)
        /\ locate fs x = Some d
        /\ (rename_or_copy cwd src x fs).2 = file_moved s d data fs).
Proof.
  intros Hsrc Hx. unfold rename_or_copy, move_fallback. rewrite Hsrc.
  destruct (os_rename cwd src x fs) as [[u|e] fs1] eqn:Hr.
  2:{ left. exists e. cbn. split; [done|]. split; [|done].
      apply (os_rename_raises src x fs). by rewrite Hr. }
  right. revert Hr. unfold os_rename.
  destruct (locate fs src) as [s|] eqn:Hs; [|discriminate].
  destruct (node_at fs s) as [[data|]|] eqn:Hn; [| |discriminate].
  2:{ exfalso. eapply isdir_false_locate in Hsrc; [|done].
      apply is_dir_at_node in Hn. congruence. }
  destruct (locate fs x) as [d|] eqn:Hd; [|discriminate].
  pose proof (node_at_file_not_root _ _ _ Hn) as Hroot.
  case_bool_decide as Heq.
  - intros [= <- <-]. subst d. exists s, s, data. cbn.
    repeat split; try done. unfold file_moved.
    rewrite insert_delete_eq, insert_id; [done|]. by apply node_at_lookup.
  - pose proof (isdir_false_locate _ _ _ Hx Hd) as Hdd.
    destruct (node_at fs d) as [[old|]|] eqn:Hnd.
    + intros [= <- <-]. exists s, d, data. done.
    + apply is_dir_at_node in Hnd. congruence.
    + intros [= <- <-]. exists s, d, data. done.
Qed.

(** The same for [shutil.move], which first looks whether the target is
    a directory. *)
Lemma move_cases src dst fs :
  os_path_isdir cwd fs src = false ->
  (exists e, (move src dst fs).1 = Raise e
             /\ is_Exception e = true
             /\ (move src dst fs).2 = fs)
  \/ (exists real_dst s d data,
        (move src dst fs).1 = Return (Some real_dst)
        /\ locate fs src = Some s
        /\ node_at fs s = Some (File data)
        /\ locate fs real_dst = Some d
        /\ os_path_isdir cwd fs real_dst = false
        /\ (move src dst fs).2 = file_moved s d data fs
        /\ (if os_path_isdir cwd fs dst
            then real_dst = join dst (shutil_basename src)
                 /\ os_path_exists cwd fs real_dst = false
            else real_dst = dst)).
Proof.
  intros Hsrc. unfold Disk.shutil_move.
  destruct (os_path_isdir cwd fs dst) eqn:Hdst.
  - destruct (shutil_samefile cwd fs src dst) eqn:Hsame.
    { exfalso. revert Hsame. unfold shutil_samefile.
      destruct (locate fs src) as [s|] eqn:Hs; [|discriminate].
      destruct (locate fs dst) as [d|] eqn:Hd; [|discriminate].
      case_bool_decide as Heq; [|discriminate]. subst d. intros _.
      apply isdir_locate in Hdst as (d & Hd' & Hdir).
      eapply isdir_false_locate in Hsrc; [|done]. congruence. }
    set (real_dst := join dst (shutil_basename src)).
    destruct (os_path_exists cwd fs real_dst) eqn:Hex.
    { left. eexists. cbn. done. }
    assert (Hnd : os_path_isdir cwd fs real_dst = false).
    { revert Hex. unfold os_path_exists, os_path_isdir.
      by destruct (lookup_path fs real_dst). }
    destruct (rename_or_copy_cases src real_dst fs Hsrc Hnd)
      as [(e & ? & ? & ?)|(s & d & data & ? & ? & ? & ? & ?)].
    + left. by exists e.
    + right. exists real_dst, s, d, data. done.
  - destruct (rename_or_copy_cases src dst fs Hsrc Hdst)
      as [(e & ? & ? & ?)|(s & d & data & ? & ? & ? & ? & ?)].
    + left. by exists e.
    + right. exists dst, s, d, data. done.
Qed.

(** What the disk looks like after the file went from [s] to [d]. *)
Lemma file_moved_keeps s d data fs :
  node_at fs s = Some (File data) -> is_dir_at fs d = false ->
  keeps_dirs fs (file_moved s d data fs).
Proof.
  intros Hs Hd l Hl. apply is_dir_at_node. apply is_dir_at_node in Hl as Hl'.
  destruct l as [|a l]; [done|]. cbn in *. unfold file_moved.
  rewrite lookup_insert_ne by congruence.
  rewrite lookup_delete_ne; [done|]. intros ->. cbn in Hs. congruence.
Qed.

Lemma file_moved_target s d data fs :
  is_dir_at fs d = false -> node_at (file_moved s d data fs) d = Some (File data).
Proof.
  intros Hd. destruct d as [|a d]; [done|]. cbn. unfold file_moved.
  by rewrite lookup_insert_eq.
Qed.

Lemma file_moved_source s d data fs :
  node_at fs s = Some (File data) -> s <> d ->
  node_at (file_moved s d data fs) s = None.
Proof.
  intros Hs Hne. destruct s as [|a s]; [done|]. cbn. unfold file_moved.
  rewrite lookup_insert_ne by done. by rewrite lookup_delete_eq.
Qed.

Lemma file_moved_dom (s d : list string) (data : string) (old : node) (fs : tree) :
  fs !! s = Some (File data) -> fs !! d = Some old ->
  dom (file_moved s d data fs) ⊆ dom fs.
Proof.
  intros Hs Hd l. unfold file_moved. rewrite !elem_of_dom.
  destruct (decide (l = d)) as [->|Hne]; [by rewrite Hd|].
  rewrite lookup_insert_ne by done.
  destruct (decide (l = s)) as [->|Hne']; [by rewrite lookup_delete_eq; intros [??]|].
  by rewrite lookup_delete_ne.
Qed.

End MoveFacts.

(* ===================================================================== *)
(** ** The batch *)
(* ===================================================================== *)

Section BatchFacts.

Variable cwd : list string.
Variable dir_st_size : Z.
Variable ultralytics : Ultralytics.

Local Abbreviation convert := (Script.convert_yolov8_to_onnx cwd dir_st_size ultralytics).
Local Abbreviation for_model_path := (Script.for_model_path cwd dir_st_size ultralytics).
Local Abbreviation run_batch := (Script.run_batch cwd dir_st_size ultralytics).
Local Abbreviation main := (Script.main cwd dir_st_size ultralytics).
Local Abbreviation makedirs := (os_makedirs_exist_ok cwd).
Local Abbreviation getsize := (Disk.os_path_getsize cwd dir_st_size).

(** The loop over a list in two parts is the loop over the first part,
    then the loop over the second. *)
Lemma for_model_path_app pre post : forall acc fs,
  for_model_path (pre ++ post) acc fs =
  let r0 := for_model_path pre acc fs in
  match result r0 with
  | Return acc' => after (trace r0) (for_model_path post acc' (disk r0))
  | Raise e => r0
  end.
Proof.
  induction pre as [|p pre IH]; intros acc fs.
  - cbn. by rewrite after_nil.
  - rewrite <- app_comm_cons, !for_model_path_cons. cbv zeta.
    destruct (os_path_exists cwd fs p).
    + destruct (result (convert p Script.default_output_dir fs)) as [out|e].
      * rewrite IH. cbv zeta. cbn [after result disk trace].
        destruct (result (for_model_path pre _ _)); [|done].
        by rewrite after_after.
      * destruct (is_Exception e); [|done].
        rewrite IH. cbv zeta. cbn [after result disk trace].
        destruct (result (for_model_path pre _ _)); [|done].
        by rewrite after_after.
    + rewrite IH. cbv zeta. cbn [after result disk trace].
      destruct (result (for_model_path pre _ _)); [|done].
      by rewrite after_after.
Qed.

Lemma for_model_path_all_missing models : forall acc fs,
  (forall p, In p models -> os_path_exists cwd fs p = false) ->
  for_model_path models acc fs =
  {| result := Return acc; disk := fs;
     trace := flat_map (fun p => [Call_exists p; Print (Model_not_found p)]) models |}.
Proof.
  induction models as [|p rest IH]; intros acc fs Hall; [reflexivity|].
  rewrite for_model_path_cons, (Hall p) by (by left).
  rewrite IH by (intros q Hq; apply Hall; by right). reflexivity.
Qed.

(** C2. A checkpoint of the registry that is not on the disk when its
    turn comes adds a warning to the console and nothing else: the loop
    goes on with the next entry from the same disk and the same list of
    converted models, no conversion is started for it and no library is
    called.  When no checkpoint of the registry is on the disk, the batch
    returns the empty list, leaves the disk as it was and starts no
    conversion. *)
Theorem missing_checkpoint_skipped :
  (forall pre p post acc fs acc',
     result (for_model_path pre acc fs) = Return acc' ->
     os_path_exists cwd (disk (for_model_path pre acc fs)) p = false ->
     for_model_path (pre ++ p :: post) acc fs
     = after (trace (for_model_path pre acc fs)
              ++ [Call_exists p; Print (Model_not_found p)])
             (for_model_path post acc' (disk (for_model_path pre acc fs))))
  /\ (forall models fs,
        (forall p, In p models -> os_path_exists cwd fs p = false) ->
        result (run_batch models fs) = Return []
        /\ disk (run_batch models fs) = fs
        /\ attempted (trace (run_batch models fs)) = []
        /\ forall p, In p models ->
             In (Print (Model_not_found p)) (trace (run_batch models fs))).
Proof.
  split.
  - intros pre p post acc fs acc' Hpre Hp.
    rewrite for_model_path_app. cbv zeta. rewrite Hpre.
    rewrite for_model_path_cons, Hp, after_after. reflexivity.
  - intros models fs Hall.
    rewrite run_batch_cases. cbv zeta.
    rewrite (for_model_path_all_missing models [] fs Hall).
    cbn [result disk trace]. repeat split.
    + rewrite !attempted_app, attempted_summary. cbn. rewrite app_nil_r.
      clear Hall. induction models as [|q rest IH]; [reflexivity | exact IH].
    + intros p Hp. apply in_or_app. right. apply in_or_app. left.
      apply in_flat_map. exists p. split; [done|]. right. by left.
Qed.

(** C5, as the code has it.  An exception that derives from [Exception]
    and is raised inside the conversion of a checkpoint is caught by the
    [try] of the loop: it is printed and the loop goes on with the next
    checkpoint, from the disk the conversion left and with the same list
    of converted models.  The creation of the output directory is such a
    step: it is made inside the conversion, so when it fails the
    conversion raises its error, which derives from [Exception], after
    the banner and before any call to the library, and the loop prints
    that error and goes on. *)
Theorem conversion_errors_are_caught :
  (forall p rest acc fs e,
     os_path_exists cwd fs p = true ->
     result (convert p Script.default_output_dir fs) = Raise e ->
     is_Exception e = true ->
     for_model_path (p :: rest) acc fs
     = after (Call_exists p :: trace (convert p Script.default_output_dir fs)
              ++ [Print (Error_converting p e)])
             (for_model_path rest acc (disk (convert p Script.default_output_dir fs))))
  /\ (forall p output_dir fs e,
        (makedirs output_dir fs).1 = Raise e ->
        convert p output_dir fs
        = {| result := Raise e; disk := (makedirs output_dir fs).2;
             trace := banner p output_dir |}
        /\ is_Exception e = true)
  /\ (forall p rest acc fs e,
        os_path_exists cwd fs p = true ->
        (makedirs Script.default_output_dir fs).1 = Raise e ->
        for_model_path (p :: rest) acc fs
        = after (Call_exists p :: banner p Script.default_output_dir
                 ++ [Print (Error_converting p e)])
                (for_model_path rest acc (makedirs Script.default_output_dir fs).2)).
Proof.
  split; [|split].
  - intros p rest acc fs e Hp Hc He.
    rewrite for_model_path_cons, Hp. cbv zeta. by rewrite Hc, He.
  - intros p output_dir fs e Hmk. split; [|by eapply makedirs_raises].
    rewrite convert_cases. cbv zeta. by rewrite Hmk.
  - intros p rest acc fs e Hp Hmk.
    rewrite for_model_path_cons, Hp, convert_cases. cbv zeta. rewrite Hmk.
    cbn [result disk trace]. by rewrite (makedirs_raises _ _ _ _ Hmk).
Qed.

Lemma for_model_path_sizes models : forall acc fs l,
  result (for_model_path models acc fs) = Return l ->
  (length (sizes_logged (trace (for_model_path models acc fs))) + length acc
   = length l)%nat.
Proof.
  induction models as [|p rest IH]; intros acc fs l.
  - cbn. by intros [= ->].
  - rewrite for_model_path_cons. cbv zeta.
    destruct (os_path_exists cwd fs p).
    + destruct (result (convert p Script.default_output_dir fs)) as [out|e] eqn:Hc.
      * cbn [after result trace]. intros Hl. apply IH in Hl.
        destruct (convert_return_sizes cwd dir_st_size ultralytics _ _ _ _ Hc)
          as (size & _ & Hs & _).
        rewrite sizes_logged_app.
        change (sizes_logged (Call_exists p :: ?t)) with (sizes_logged t).
        rewrite length_app, Hs.
        rewrite length_app in Hl. cbn in *. lia.
      * destruct (is_Exception e); [|discriminate].
        cbn [after result trace]. intros Hl. apply IH in Hl.
        apply (convert_raise_sizes cwd dir_st_size ultralytics) in Hc.
        rewrite sizes_logged_app.
        change (sizes_logged (Call_exists p :: ?t)) with (sizes_logged t).
        rewrite sizes_logged_app, !length_app, Hc. cbn in *. lia.
    + cbn [after result trace]. intros Hl. apply IH in Hl.
      rewrite sizes_logged_app, length_app. cbn in *. lia.
Qed.

(** C6, as the code has it.  A conversion that returns has itself asked
    for the size of the file at the output path, printed that size
    divided by 1024 * 1024 as its last line, and then handed back the
    output path.  The caller prints no size: the batch shows as many
    size lines as there are converted models. *)
Theorem size_logged_by_convert :
  (forall model_path output_dir fs out,
     result (convert model_path output_dir fs) = Return out ->
     exists size,
       getsize (disk (convert model_path output_dir fs)) out = Return size
       /\ sizes_logged (trace (convert model_path output_dir fs))
          = [(inject_Z size / inject_Z (1024 * 1024))%Q]
       /\ last (trace (convert model_path output_dir fs))
          = Some (Print (File_size_MB (inject_Z size / inject_Z (1024 * 1024)))))
  /\ (forall models fs l,
        result (run_batch models fs) = Return l ->
        length (sizes_logged (trace (run_batch models fs))) = length l).
Proof.
  split.
  - apply convert_return_sizes.
  - intros models fs l. rewrite run_batch_cases. cbv zeta.
    destruct (result (for_model_path models [] fs)) as [l'|e] eqn:Hl; [|discriminate].
    cbn [result trace]. intros [= ->].
    apply for_model_path_sizes in Hl.
    rewrite !sizes_logged_app, sizes_logged_summary, !length_app. cbn in *. lia.
Qed.

End BatchFacts.

(* ===================================================================== *)
(** ** Facts about paths *)
(* ===================================================================== *)

Lemma take_drop_str n : forall s, (take_str n s ++ drop_str n s)%string = s.
Proof.
  induction n as [|n IH]; intros [|a r]; cbn; try reflexivity.
  change (String a (take_str n r ++ drop_str n r)%string = String a r).
  by rewrite IH.
Qed.

Lemma append_empty_r s : (s ++ "")%string = s.
Proof.
  induction s as [|a r IH]; [reflexivity|].
  change (String a (r ++ "")%string = String a r). by rewrite IH.
Qed.

Lemma splitext_parts p : ((splitext p).1 ++ (splitext p).2)%string = p.
Proof.
  unfold splitext. destruct (rfind extsep p) as [dotIndex|]; cbn.
  - case_match; cbn; [apply take_drop_str | apply append_empty_r].
  - apply append_empty_r.
Qed.

Lemma rfind_None_cons c a r :
  rfind c (String a r) = None <-> Ascii.eqb a c = false /\ rfind c r = None.
Proof.
  cbn. destruct (rfind c r); [split; [discriminate | intros [_ [=]]]|].
  destruct (Ascii.eqb a c); split; try done. by intros [[=] _].
Qed.

Lemma rfind_after_last c : forall s i,
  rfind c s = Some i -> rfind c (drop_str (S i) s) = None.
Proof.
  induction s as [|a r IH]; intros i; [discriminate|].
  cbn [rfind]. destruct (rfind c r) as [j|] eqn:Hr.
  - intros [= <-]. cbn. by apply IH.
  - destruct (Ascii.eqb a c); [|discriminate]. intros [= <-]. cbn.
    by destruct r.
Qed.

Lemma rfind_None_take c n : forall s,
  rfind c s = None -> rfind c (take_str n s) = None.
Proof.
  induction n as [|n IH]; intros [|a r]; try done.
  rewrite rfind_None_cons. intros [Ha Hr]. cbn [take_str].
  apply rfind_None_cons. auto.
Qed.

Lemma basename_no_sep p : rfind sep (basename p) = None.
Proof.
  unfold basename. destruct (rfind sep p) as [i|] eqn:Hp; [|done].
  by apply rfind_after_last.
Qed.

Lemma splitext_root_no_sep b :
  rfind sep b = None -> rfind sep (splitext b).1 = None.
Proof.
  intros Hb. unfold splitext. destruct (rfind extsep b); [|done].
  case_match; [|done]. cbn. by apply rfind_None_take.
Qed.

(** The file name the script builds never starts with a separator, so
    [join] keeps the directory in front of it. *)
Lemma output_name_relative model_path :
  startswith sep ((splitext (basename model_path)).1 ++ ".onnx") = false.
Proof.
  pose proof (splitext_root_no_sep _ (basename_no_sep model_path)) as H.
  destruct (splitext (basename model_path)).1 as [|a r]; [reflexivity|].
  apply rfind_None_cons in H as [Ha _]. exact Ha.
Qed.

Lemma join_plain a b :
  startswith sep b = false -> a <> "" -> endswith sep a = false ->
  join a b = (a ++ "/" ++ b)%string.
Proof.
  intros Hb Ha He. unfold join. rewrite Hb, He.
  destruct (String.eqb_spec a ""); done.
Qed.

(* ===================================================================== *)
(** ** One conversion and the disk *)
(* ===================================================================== *)

Section ConvertFacts.

Variable cwd : list string.
Variable dir_st_size : Z.
Variable ultralytics : Ultralytics.

Local Abbreviation convert := (Script.convert_yolov8_to_onnx cwd dir_st_size ultralytics).
Local Abbreviation for_model_path := (Script.for_model_path cwd dir_st_size ultralytics).
Local Abbreviation exported := (Observe.exported cwd ultralytics).
Local Abbreviation makedirs := (os_makedirs_exist_ok cwd).
Local Abbreviation getsize := (Disk.os_path_getsize cwd dir_st_size).
Local Abbreviation move := (Disk.shutil_move cwd).
Local Abbreviation locate := (Disk.locate cwd).
Local Abbreviation lookup_path := (Disk.lookup_path cwd).

(** From the export on, a conversion is the move and the size. *)
Lemma convert_from_export model_path output_dir fs onnx_path fs2 :
  exported model_path output_dir fs = Some (onnx_path, fs2) ->
  let out := output_path_of model_path output_dir in
  let mv := move onnx_path out fs2 in
  result (convert model_path output_dir fs)
  = match mv.1 with
    | Raise e => Raise e
    | Return _ =>
        match getsize mv.2 out with
        | Raise e => Raise e
        | Return _ => Return out
        end
    end
  /\ disk (convert model_path output_dir fs) = mv.2.
Proof.
  unfold Observe.exported. intros H. cbv zeta. rewrite convert_cases. cbv zeta.
  destruct (makedirs output_dir fs) as [[[]|e0] fs0];
    cbn [fst snd] in *; [|discriminate].
  destruct (YOLO ultralytics model_path fs0) as [[model|e1] fs1];
    cbn [fst snd] in *; [|discriminate].
  destruct (Model_export ultralytics model Script.export_args fs1)
    as [[p|e2] fs2']; cbn [fst snd] in *; [|discriminate].
  injection H as -> ->.
  destruct (move onnx_path _ fs2).1; [|done].
  destruct (getsize _ _); done.
Qed.

Lemma convert_reaches_export model_path output_dir fs out :
  result (convert model_path output_dir fs) = Return out ->
  exists onnx_path fs2, exported model_path output_dir fs = Some (onnx_path, fs2).
Proof.
  unfold Observe.exported. rewrite convert_cases. cbv zeta.
  destruct (makedirs output_dir fs) as [[[]|e0] fs0];
    cbn [fst snd result]; [|discriminate].
  destruct (YOLO ultralytics model_path fs0) as [[model|e1] fs1];
    cbn [fst snd result]; [|discriminate].
  destruct (Model_export ultralytics model Script.export_args fs1)
    as [[p|e2] fs2']; cbn [fst snd result]; [|discriminate].
  eauto.
Qed.

Lemma lookup_path_locate fs p x :
  lookup_path fs p = Some x <-> exists l, locate fs p = Some l /\ node_at fs l = Some x.
Proof.
  unfold Disk.lookup_path. destruct (locate fs p) as [l|]; split.
  - eauto.
  - by intros (l' & [= ->] & H).
  - discriminate.
  - by intros (l' & [=] & _).
Qed.

Lemma lookup_file_not_dir fs p data :
  lookup_path fs p = Some (File data) -> os_path_isdir cwd fs p = false.
Proof. unfold os_path_isdir. by intros ->. Qed.

(** C3, as the code has it.  Every conversion that returns hands back
    the path [join output_dir (model_name ++ ".onnx")], where
    [model_name] is the file name of the checkpoint without its
    extension; for a directory name that is not empty and has no
    trailing separator this is [output_dir/model_name.onnx].  The
    exporter has then returned a path, and what it wrote there (a
    regular file) is moved: when no directory has the output path, it is
    afterwards the regular file at the output path; when a directory has
    the output path, that path is still the directory and the file is
    inside it, under the name the exporter gave it. *)
Theorem convert_relocates model_path output_dir fs out :
  result (convert model_path output_dir fs) = Return out ->
  let model_name := (splitext (basename model_path)).1 in
  let r := convert model_path output_dir fs in
  out = join output_dir (model_name ++ ".onnx")
  /\ (model_name ++ (splitext (basename model_path)).2)%string = basename model_path
  /\ (output_dir <> "" -> endswith sep output_dir = false ->
      out = (output_dir ++ "/" ++ model_name ++ ".onnx")%string)
  /\ exists onnx_path fs2,
       exported model_path output_dir fs = Some (onnx_path, fs2)
       /\ forall data,
            lookup_path fs2 onnx_path = Some (File data) ->
            (os_path_isdir cwd fs2 out = false ->
             lookup_path (disk r) out = Some (File data))
            /\ (os_path_isdir cwd fs2 out = true ->
                lookup_path (disk r) out = Some Dir
                /\ lookup_path (disk r) (join out (shutil_basename onnx_path))
                   = Some (File data)).
Proof.
  intros Hret. cbv zeta.
  apply convert_result in Hret as Heq. subst out.
  split; [reflexivity|]. split; [apply splitext_parts|]. split.
  { intros. apply join_plain; [apply output_name_relative | done..]. }
  destruct (convert_reaches_export _ _ _ _ Hret) as (onnx_path & fs2 & Hex).
  exists onnx_path, fs2. split; [done|]. intros data Hsrc.
  destruct (convert_from_export _ _ _ _ _ Hex) as [Hres Hdisk].
  rewrite Hdisk. rewrite Hres in Hret.
  destruct (move_cases cwd onnx_path (output_path_of model_path output_dir) fs2
              (lookup_file_not_dir _ _ _ Hsrc))
    as [(e & He & _)|(real_dst & s & d & data' & _ & Hs & Hn & Hd & Hnd & Hfs & Hreal)].
  { rewrite He in Hret. discriminate. }
  apply lookup_path_locate in Hsrc as (s' & Hs' & Hn').
  assert (s' = s) as -> by congruence. assert (data' = data) as -> by congruence.
  pose proof (isdir_false_locate cwd _ _ _ Hnd Hd) as Hdd.
  pose proof (file_moved_keeps s d data fs2 Hn Hdd) as Hkeep.
  rewrite Hfs. split; intros Hout; rewrite Hout in Hreal.
  - subst real_dst. apply lookup_path_locate. exists d. split.
    + by eapply locate_keeps.
    + by apply file_moved_target.
  - destruct Hreal as [-> _]. split.
    + apply isdir_locate in Hout as (l & Hl & Hdir).
      apply lookup_path_locate. exists l. split.
      * by eapply locate_keeps.
      * apply is_dir_at_node. by apply Hkeep.
    + apply lookup_path_locate. exists d. split.
      * by eapply locate_keeps.
      * by apply file_moved_target.
Qed.

(** A move in the events of a conversion is the move of what the
    exporter returned to the output path, on the disk the exporter
    left; the conversion ends on the disk that move leaves. *)
Lemma move_in_trace model_path output_dir fs src dst :
  In (Call_move src dst) (trace (convert model_path output_dir fs)) ->
  exists fs2,
    exported model_path output_dir fs = Some (src, fs2)
    /\ dst = output_path_of model_path output_dir
    /\ disk (convert model_path output_dir fs) = (move src dst fs2).2.
Proof.
  unfold Observe.exported. rewrite convert_cases. cbv zeta.
  destruct (makedirs output_dir fs) as [[[]|e0] fs0]; cbn [fst snd result disk trace].
  2:{ cbn. intuition discriminate. }
  destruct (YOLO ultralytics model_path fs0) as [[model|e1] fs1];
    cbn [fst snd result disk trace].
  2:{ cbn. intuition discriminate. }
  destruct (Model_export ultralytics model Script.export_args fs1)
    as [[p|e2] fs2]; cbn [fst snd result disk trace].
  2:{ cbn. intuition discriminate. }
  intros Hin. exists fs2.
  assert (Hsd : Call_move p (output_path_of model_path output_dir) = Call_move src dst).
  { destruct (move p _ fs2).1; [destruct (getsize _ _)|]; cbn in Hin;
      repeat (destruct Hin as [Hin|Hin]; [try discriminate; try exact Hin|]);
      destruct Hin. }
  injection Hsd as <- <-. split; [done|]. split; [done|].
  destruct (move p _ fs2).1; [destruct (getsize _ _)|]; reflexivity.
Qed.

(** What stands behind [exported]: the three calls, each on the disk
    the call before it left. *)
Lemma exported_stages model_path output_dir fs onnx_path fs2 :
  exported model_path output_dir fs = Some (onnx_path, fs2) ->
  exists model,
    (makedirs output_dir fs).1 = Return tt
    /\ (YOLO ultralytics model_path (makedirs output_dir fs).2).1 = Return model
    /\ Model_export ultralytics model Script.export_args
         (YOLO ultralytics model_path (makedirs output_dir fs).2).2
       = (Return onnx_path, fs2).
Proof.
  unfold Observe.exported.
  destruct (makedirs output_dir fs) as [[[]|e0] fs0]; cbn [fst snd]; [|discriminate].
  destruct (YOLO ultralytics model_path fs0) as [[model|e1] fs1];
    cbn [fst snd]; [|discriminate].
  destruct (Model_export ultralytics model Script.export_args fs1)
    as [[p|e2] fs2'] eqn:Hexp; [|discriminate].
  intros [= -> ->]. by exists model.
Qed.

(** With a library that removes no directory, the output directory is
    there when the move is made. *)
Lemma exported_keeps_directory model_path output_dir fs onnx_path fs2 :
  (forall p fs0, keeps_dirs fs0 (YOLO ultralytics p fs0).2) ->
  (forall m a fs1, keeps_dirs fs1 (Model_export ultralytics m a fs1).2) ->
  exported model_path output_dir fs = Some (onnx_path, fs2) ->
  os_path_isdir cwd fs2 output_dir = true.
Proof.
  intros Hload Hexport Hex.
  destruct (exported_stages _ _ _ _ _ Hex) as (model & Hmk & Hld & Hexp).
  pose proof (Hexport model Script.export_args
                (YOLO ultralytics model_path (makedirs output_dir fs).2).2) as Hk2.
  rewrite Hexp in Hk2. cbn [snd] in Hk2.
  eapply isdir_keeps; [exact Hk2|].
  eapply isdir_keeps; [apply Hload|]. by eapply makedirs_returns.
Qed.

(** With a library that removes no directory and an exporter that
    returns no directory, the output directory, once created, is there
    on the disk a conversion ends on, however the conversion ends. *)
Lemma convert_keeps_output_dir model_path output_dir fs :
  (forall p fs0, keeps_dirs fs0 (YOLO ultralytics p fs0).2) ->
  (forall m a fs1, keeps_dirs fs1 (Model_export ultralytics m a fs1).2) ->
  (forall m a fs1 p,
     (Model_export ultralytics m a fs1).1 = Return p ->
     os_path_isdir cwd (Model_export ultralytics m a fs1).2 p = false) ->
  (makedirs output_dir fs).1 = Return tt ->
  os_path_isdir cwd (disk (convert model_path output_dir fs)) output_dir = true.
Proof.
  intros Hload Hexport Hfile Hmk.
  pose proof (makedirs_returns cwd _ _ _ Hmk) as Hdir.
  pose proof (Hload model_path (makedirs output_dir fs).2) as Hk1.
  rewrite convert_cases. cbv zeta. rewrite Hmk.
  destruct (YOLO ultralytics model_path (makedirs output_dir fs).2).1
    as [model|e1] eqn:Hld; cbn [result disk]; [|by eapply isdir_keeps].
  pose proof (Hexport model Script.export_args
                (YOLO ultralytics model_path (makedirs output_dir fs).2).2) as Hk2.
  assert (Hdir2 : os_path_isdir cwd
            (Model_export ultralytics model Script.export_args
               (YOLO ultralytics model_path (makedirs output_dir fs).2).2).2
            output_dir = true).
  { eapply isdir_keeps; [exact Hk2|]. by eapply isdir_keeps. }
  destruct (Model_export ultralytics model Script.export_args _).1
    as [onnx_path|e2] eqn:Hexp; cbn [result disk]; [|done].
  apply Hfile in Hexp.
  set (fs2 := (Model_export ultralytics model Script.export_args _).2) in *.
  assert (Hmoved : os_path_isdir cwd
            (move onnx_path (output_path_of model_path output_dir) fs2).2 output_dir
          = true).
  { destruct (move_cases cwd onnx_path (output_path_of model_path output_dir) fs2 Hexp)
      as [(e & _ & _ & ->)|(real_dst & s & d & data & _ & _ & Hn & Hd & Hnd & -> & _)];
      [done|].
    eapply isdir_keeps; [|exact Hdir2].
    apply file_moved_keeps; [done|]. by eapply isdir_false_locate. }
  destruct (move onnx_path _ fs2).1; [destruct (getsize _ _)|]; exact Hmoved.
Qed.

(** C7. A move appears in the events of a conversion only after the
    call that creates the output directory, and only when that call
    returned, which leaves the path a directory with every directory on
    the way to it.  The move is made on the disk the exporter left,
    which the exporter got from the load and the load from the creation
    of the directory, and the conversion ends on the disk the move
    leaves: with a library that removes no directory the output
    directory is there when the move is made, and still there when the
    conversion ends (the exporter returning no directory).  The creation
    is idempotent: on a disk where the output directory exists it
    returns without changing the disk, and the conversion goes on to
    load the checkpoint.  Parents are created as needed: for
    [public/models], the directory of [main], both [public] and
    [public/models] are directories afterwards, whenever neither name is
    taken by a regular file; and for any path without [..], when the
    walk starts in a directory and no place on the way is taken by a
    regular file, the call returns, every place on the way is a
    directory afterwards, and the conversion goes on to load the
    checkpoint.  Whenever the creation returned, the output directory
    is a directory on the disk the conversion ends on, whether it
    returns or raises (the library removing no directory, the exporter
    returning no directory). *)
Theorem directory_created_before_move model_path output_dir fs :
  (forall src dst,
     In (Call_move src dst) (trace (convert model_path output_dir fs)) ->
     (makedirs output_dir fs).1 = Return tt
     /\ os_path_isdir cwd (makedirs output_dir fs).2 output_dir = true
     /\ (exists t1 t2,
           trace (convert model_path output_dir fs) = t1 ++ Call_move src dst :: t2
           /\ In (Call_makedirs output_dir) t1)
     /\ exists fs2,
          exported model_path output_dir fs = Some (src, fs2)
          /\ disk (convert model_path output_dir fs) = (move src dst fs2).2
          /\ ((forall p fs0, keeps_dirs fs0 (YOLO ultralytics p fs0).2) ->
              (forall m a fs1, keeps_dirs fs1 (Model_export ultralytics m a fs1).2) ->
              os_path_isdir cwd fs2 output_dir = true
              /\ ((forall m a fs1 p,
                     (Model_export ultralytics m a fs1).1 = Return p ->
                     os_path_isdir cwd (Model_export ultralytics m a fs1).2 p = false) ->
                  os_path_isdir cwd (disk (convert model_path output_dir fs)) output_dir
                  = true)))
  /\ (os_path_isdir cwd fs output_dir = true ->
      makedirs output_dir fs = (Return tt, fs)
      /\ In (Call_YOLO model_path) (trace (convert model_path output_dir fs)))
  /\ (output_dir = Script.default_output_dir ->
      is_dir_at fs cwd = true ->
      (forall data, fs !! (cwd ++ ["public"]) <> Some (File data)) ->
      (forall data, fs !! (cwd ++ ["public"; "models"]) <> Some (File data)) ->
      (makedirs output_dir fs).1 = Return tt
      /\ is_dir_at (makedirs output_dir fs).2 (cwd ++ ["public"]) = true
      /\ is_dir_at (makedirs output_dir fs).2 (cwd ++ ["public"; "models"]) = true)
  /\ (output_dir <> "" ->
      is_dir_at fs (start_of cwd output_dir) = true ->
      ~ In ".." (split_sep output_dir) ->
      (forall l data,
         In l (on_the_way (start_of cwd output_dir) (split_sep output_dir)) ->
         node_at fs l <> Some (File data)) ->
      (makedirs output_dir fs).1 = Return tt
      /\ (forall l,
            In l (on_the_way (start_of cwd output_dir) (split_sep output_dir)) ->
            is_dir_at (makedirs output_dir fs).2 l = true)
      /\ os_path_isdir cwd (makedirs output_dir fs).2 output_dir = true
      /\ In (Call_YOLO model_path) (trace (convert model_path output_dir fs)))
  /\ ((forall p fs0, keeps_dirs fs0 (YOLO ultralytics p fs0).2) ->
      (forall m a fs1, keeps_dirs fs1 (Model_export ultralytics m a fs1).2) ->
      (forall m a fs1 p,
         (Model_export ultralytics m a fs1).1 = Return p ->
         os_path_isdir cwd (Model_export ultralytics m a fs1).2 p = false) ->
      (makedirs output_dir fs).1 = Return tt ->
      os_path_isdir cwd (disk (convert model_path output_dir fs)) output_dir = true).
Proof.
  split; [|split; [|split; [intros ->; apply makedirs_public_models|
                            split; [|apply convert_keeps_output_dir]]]].
  - intros src dst Hin.
    assert (Hmk : exists u, (makedirs output_dir fs).1 = Return u).
    { stages; cbn in Hin; try (intuition discriminate); eauto. }
    destruct Hmk as [[] Hmk]. split; [done|]. split; [by eapply makedirs_returns|].
    split.
    { stages; cbn in Hin; try (intuition discriminate);
        (destruct Hin as [|[|[|[|[|[|[Heq|Hin]]]]]]]; try discriminate;
         [injection Heq as <- <-
         |try (cbn in Hin; intuition discriminate)]).
      all: eexists (banner model_path output_dir ++ [_; _]), _;
        (split; [cbn; reflexivity | cbn; auto 10]). }
    destruct (move_in_trace _ _ _ _ _ Hin) as (fs2 & Hex & -> & Hdisk).
    exists fs2. split; [done|]. split; [done|]. intros Hload Hexport.
    pose proof (exported_keeps_directory _ _ _ _ _ Hload Hexport Hex) as Hdir.
    split; [done|]. intros Hfile.
    by apply convert_keeps_output_dir.
  - intros Hdir. pose proof (makedirs_idem cwd _ _ Hdir) as Hid.
    split; [done|]. rewrite convert_cases. cbv zeta. rewrite Hid. cbn [fst snd].
    repeat case_match; cbn; auto 10.
  - intros Hname Hstart Hup Hclear.
    destruct (makedirs_clear cwd _ _ Hname Hstart Hup Hclear) as [Hmk Hall].
    split; [done|]. split; [done|]. split; [by eapply makedirs_returns|].
    rewrite convert_cases. cbv zeta. rewrite Hmk.
    repeat case_match; cbn; auto 10.
Qed.

(** Moving the exported file onto a regular file. *)
Lemma move_onto_existing_file model_path output_dir fs onnx_path fs2 data old :
  exported model_path output_dir fs = Some (onnx_path, fs2) ->
  lookup_path fs2 onnx_path = Some (File data) ->
  lookup_path fs2 (output_path_of model_path output_dir) = Some (File old) ->
  let r := convert model_path output_dir fs in
  result r = Return (output_path_of model_path output_dir)
  /\ lookup_path (disk r) (output_path_of model_path output_dir) = Some (File data)
  /\ dom (disk r) ⊆ dom fs2
  /\ exists s d,
       locate fs2 onnx_path = Some s
       /\ locate fs2 (output_path_of model_path output_dir) = Some d
       /\ disk r = <[d := File data]> (delete s fs2).
Proof.
  intros Hex Hsrc Hdst. cbv zeta.
  destruct (convert_from_export _ _ _ _ _ Hex) as [Hres Hdisk].
  rewrite Hres, Hdisk. clear Hres Hdisk.
  pose proof (lookup_file_not_dir _ _ _ Hdst) as Hout.
  destruct (move_cases cwd onnx_path (output_path_of model_path output_dir) fs2
              (lookup_file_not_dir _ _ _ Hsrc))
    as [(e & He & _ & _)|(real_dst & s & d & data' & Hmv & Hs & Hn & Hd & Hnd & Hfs & Hreal)].
  { exfalso. revert He. unfold Disk.shutil_move, rename_or_copy, move_fallback.
    rewrite Hout, (lookup_file_not_dir _ _ _ Hsrc). unfold os_rename.
    apply lookup_path_locate in Hsrc as (s & -> & ->).
    apply lookup_path_locate in Hdst as (d & -> & ->).
    by case_bool_decide. }
  rewrite Hout in Hreal. subst real_dst.
  apply lookup_path_locate in Hsrc as (s' & Hs' & Hn').
  apply lookup_path_locate in Hdst as (d' & Hd' & Hnd').
  assert (s' = s) as -> by congruence. assert (d' = d) as -> by congruence.
  assert (data' = data) as -> by congruence.
  pose proof (isdir_false_locate cwd _ _ _ Hnd Hd) as Hdd.
  assert (Hnew : lookup_path (file_moved s d data fs2)
                   (output_path_of model_path output_dir) = Some (File data)).
  { apply lookup_path_locate. exists d. split.
    - eapply locate_keeps; [by apply file_moved_keeps | done].
    - by apply file_moved_target. }
  rewrite Hmv, Hfs. unfold Disk.os_path_getsize. rewrite Hnew.
  split; [done|]. split; [done|]. split.
  - eapply file_moved_dom; apply node_at_lookup; try done.
    + by eapply node_at_file_not_root.
    + by eapply node_at_file_not_root.
  - exists s, d. done.
Qed.

Lemma isfile_lookup fs p :
  os_path_isfile cwd fs p = true -> exists data, lookup_path fs p = Some (File data).
Proof.
  unfold os_path_isfile. destruct (lookup_path fs p) as [[data|]|]; [eauto|done..].
Qed.

(** The loop on a disk where every output file is replaced. *)
Lemma for_model_path_replaces models : forall acc fs,
  Account.replaces_all cwd dir_st_size ultralytics models fs = true ->
  result (for_model_path models acc fs)
  = Return (acc ++ map (fun p => output_path_of p Script.default_output_dir) models).
Proof.
  induction models as [|p rest IH]; intros acc fs; cbn [Account.replaces_all map].
  - intros _. cbn. by rewrite app_nil_r.
  - intros Hall. apply andb_true_iff in Hall as [Hp Hall].
    destruct (exported p Script.default_output_dir fs) as [[onnx_path fs2]|] eqn:Hex;
      [|discriminate].
    apply andb_true_iff in Hall as [Hall Hrest].
    apply andb_true_iff in Hall as [Hsrc Hdst].
    apply isfile_lookup in Hsrc as [data Hsrc].
    apply isfile_lookup in Hdst as [old Hdst].
    destruct (move_onto_existing_file _ _ _ _ _ _ _ Hex Hsrc Hdst) as (Hr & _).
    rewrite for_model_path_cons, Hp. cbv zeta. rewrite Hr.
    cbn [after result]. rewrite (IH _ _ Hrest). by rewrite <- app_assoc.
Qed.

(** C8, as the code has it.  A run over a disk where, for every listed
    checkpoint in its turn, the checkpoint is present, the library
    exports it to a regular file and a regular file is at its output
    path when the move is made (the disk a run before has left, when no
    directory had the name of an output file) converts every checkpoint
    again: the batch returns the output path of every entry of the
    registry, in order.  In such a conversion the move does not fail:
    the conversion returns the output path, the file at that path now
    has the new content, and the disk has no entry that it did not have
    before the move, so there is no second file. *)
Theorem rerun_replaces_outputs :
  (forall models fs,
     Account.replaces_all cwd dir_st_size ultralytics models fs = true ->
     result (Script.run_batch cwd dir_st_size ultralytics models fs)
     = Return (map (fun p => output_path_of p Script.default_output_dir) models))
  /\ (forall model_path output_dir fs onnx_path fs2 data old,
        exported model_path output_dir fs = Some (onnx_path, fs2) ->
        lookup_path fs2 onnx_path = Some (File data) ->
        lookup_path fs2 (output_path_of model_path output_dir) = Some (File old) ->
        let r := convert model_path output_dir fs in
        result r = Return (output_path_of model_path output_dir)
        /\ lookup_path (disk r) (output_path_of model_path output_dir)
           = Some (File data)
        /\ dom (disk r) ⊆ dom fs2
        /\ (exists s d,
              locate fs2 onnx_path = Some s
              /\ locate fs2 (output_path_of model_path output_dir) = Some d
              /\ disk r = <[d := File data]> (delete s fs2))
        /\ (output_dir = Script.default_output_dir ->
            os_path_exists cwd fs model_path = true ->
            forall rest acc,
              for_model_path (model_path :: rest) acc fs
              = after (Call_exists model_path :: trace r)
                      (for_model_path rest
                         (acc ++ [output_path_of model_path output_dir]) (disk r)))).
Proof.
  split.
  - intros models fs Hall. rewrite run_batch_cases. cbv zeta.
    by rewrite (for_model_path_replaces models [] fs Hall).
  - intros model_path output_dir fs onnx_path fs2 data old Hex Hsrc Hdst.
    destruct (move_onto_existing_file _ _ _ _ _ _ _ Hex Hsrc Hdst)
      as (Hr & Hl & Hdom & Hsd).
    cbv zeta. repeat (split; [assumption|]).
    intros -> Hp rest acc. rewrite for_model_path_cons, Hp. cbv zeta.
    rewrite Hr. reflexivity.
Qed.

(** C9, as the code has it.  After a conversion that returned, the file
    the exporter wrote is no longer at the path the exporter returned,
    provided that path and the output path are different places on the
    disk; and when no directory had the output path, the file is now
    there. *)
Theorem exported_file_moved_away model_path output_dir fs onnx_path fs2 out :
  exported model_path output_dir fs = Some (onnx_path, fs2) ->
  result (convert model_path output_dir fs) = Return out ->
  os_path_isdir cwd fs2 onnx_path = false ->
  locate fs2 onnx_path <> locate fs2 out ->
  os_path_exists cwd (disk (convert model_path output_dir fs)) onnx_path = false
  /\ (os_path_isdir cwd fs2 out = false ->
      is_Some (lookup_path fs2 onnx_path)
      /\ lookup_path (disk (convert model_path output_dir fs)) out
         = lookup_path fs2 onnx_path).
Proof.
  intros Hex Hret Hsrc Hne.
  apply convert_result in Hret as Heq. subst out.
  destruct (convert_from_export _ _ _ _ _ Hex) as [Hres Hdisk].
  rewrite Hdisk. rewrite Hres in Hret. clear Hres Hdisk.
  destruct (move_cases cwd onnx_path (output_path_of model_path output_dir) fs2 Hsrc)
    as [(e & He & _)|(real_dst & s & d & data & _ & Hs & Hn & Hd & Hnd & Hfs & Hreal)].
  { rewrite He in Hret. discriminate. }
  pose proof (isdir_false_locate cwd _ _ _ Hnd Hd) as Hdd.
  pose proof (file_moved_keeps s d data fs2 Hn Hdd) as Hkeep.
  rewrite Hfs.
  assert (Hsd : s <> d).
  { intros <-. destruct (os_path_isdir cwd fs2 (output_path_of _ _)).
    - destruct Hreal as [_ Hno]. revert Hno. unfold os_path_exists, Disk.lookup_path.
      by rewrite Hd, Hn.
    - subst real_dst. congruence. }
  split.
  - unfold os_path_exists, Disk.lookup_path.
    rewrite (locate_keeps cwd _ _ _ _ Hkeep Hs).
    by rewrite file_moved_source.
  - intros Hout. rewrite Hout in Hreal. subst real_dst.
    unfold Disk.lookup_path at 1 3. rewrite Hs, Hn.
    split; [done|]. apply lookup_path_locate. exists d. split.
    + by eapply locate_keeps.
    + by apply file_moved_target.
Qed.

(** C10. A conversion creates the output directory first.  When that
    call returned and the conversion then raises, the directory is still
    there (with the directories on the way to it) although the caller
    sees an exception, and the disk is the one the library calls left:
    the script itself wrote nothing after the directory, so no output
    file was produced.  The library is taken to remove no directory and
    the exporter to return no directory. *)
Theorem failed_convert_keeps_directory model_path output_dir fs e :
  (forall p fs0, keeps_dirs fs0 (YOLO ultralytics p fs0).2) ->
  (forall m a fs1, keeps_dirs fs1 (Model_export ultralytics m a fs1).2) ->
  (forall m a fs1 p,
     (Model_export ultralytics m a fs1).1 = Return p ->
     os_path_isdir cwd (Model_export ultralytics m a fs1).2 p = false) ->
  (makedirs output_dir fs).1 = Return tt ->
  result (convert model_path output_dir fs) = Raise e ->
  let loaded := YOLO ultralytics model_path (makedirs output_dir fs).2 in
  os_path_isdir cwd (disk (convert model_path output_dir fs)) output_dir = true
  /\ disk (convert model_path output_dir fs)
     = match loaded.1 with
       | Return model => (Model_export ultralytics model Script.export_args loaded.2).2
       | Raise _ => loaded.2
       end.
Proof.
  intros Hload Hexport Hfile Hmk Hraise. cbv zeta.
  pose proof (makedirs_returns cwd _ _ _ Hmk) as Hdir.
  pose proof (Hload model_path (makedirs output_dir fs).2) as Hk1.
  revert Hraise. rewrite convert_cases. cbv zeta. rewrite Hmk.
  destruct (YOLO ultralytics model_path (makedirs output_dir fs).2).1
    as [model|e1] eqn:Hld; cbn [result disk].
  2:{ intros _. split; [by eapply isdir_keeps | done]. }
  pose proof (Hexport model Script.export_args
                (YOLO ultralytics model_path (makedirs output_dir fs).2).2) as Hk2.
  assert (Hdir2 : os_path_isdir cwd
            (Model_export ultralytics model Script.export_args
               (YOLO ultralytics model_path (makedirs output_dir fs).2).2).2
            output_dir = true).
  { eapply isdir_keeps; [exact Hk2|]. by eapply isdir_keeps. }
  destruct (Model_export ultralytics model Script.export_args _).1
    as [onnx_path|e2] eqn:Hexp; cbn [result disk].
  2:{ intros _. done. }
  apply Hfile in Hexp.
  set (fs2 := (Model_export ultralytics model Script.export_args _).2) in *.
  destruct (move_cases cwd onnx_path (output_path_of model_path output_dir) fs2 Hexp)
    as [(e3 & He & _ & Hsame)|(real_dst & s & d & data & Hmv & Hs & Hn & Hd & Hnd & Hfs & Hreal)].
  { rewrite He. cbn [result disk]. intros _. by rewrite Hsame. }
  rewrite Hmv.
  pose proof (isdir_false_locate cwd _ _ _ Hnd Hd) as Hdd.
  pose proof (file_moved_keeps s d data fs2 Hn Hdd) as Hkeep.
  assert (Hex : is_Some (lookup_path (move onnx_path (output_path_of model_path output_dir) fs2).2
                           (output_path_of model_path output_dir))).
  { rewrite Hfs. destruct (os_path_isdir cwd fs2 (output_path_of _ _)) eqn:Hout.
    - eapply isdir_keeps in Hout; [|exact Hkeep].
      revert Hout. unfold os_path_isdir. by destruct (lookup_path _ _).
    - subst real_dst. exists (File data). apply lookup_path_locate. exists d. split.
      + by eapply locate_keeps.
      + by apply file_moved_target. }
  unfold Disk.os_path_getsize. destruct Hex as [[data'|] ->]; discriminate.
Qed.

End ConvertFacts.

(* ===================================================================== *)
(** ** The sample library *)
(* ===================================================================== *)

Lemma sample_YOLO_disk p fs : (Sample.sample_YOLO p fs).2 = fs.
Proof. unfold Sample.sample_YOLO. by repeat case_match. Qed.

Lemma keeps_dirs_refl fs : keeps_dirs fs fs.
Proof. by intros l Hl. Qed.

Lemma sample_YOLO_keeps_dirs p fs : keeps_dirs fs (Sample.sample_YOLO p fs).2.
Proof. rewrite sample_YOLO_disk. apply keeps_dirs_refl. Qed.

Lemma sample_export_keeps_dirs m a fs :
  keeps_dirs fs (Sample.sample_export m a fs).2.
Proof.
  unfold Sample.sample_export.
  destruct (Disk.locate Sample.cwd fs _) as [l|]; [|apply keeps_dirs_refl].
  destruct (is_dir_at fs l) eqn:Hd; [apply keeps_dirs_refl|]. cbn.
  intros l' Hl'. apply is_dir_at_node. apply is_dir_at_node in Hl' as Hn.
  destruct l' as [|c l']; [done|]. cbn in *.
  rewrite lookup_insert_ne; [done | congruence].
Qed.

Lemma sample_export_returns_file m a fs p :
  (Sample.sample_export m a fs).1 = Return p ->
  os_path_isdir Sample.cwd (Sample.sample_export m a fs).2 p = false.
Proof.
  pose proof (sample_export_keeps_dirs m a fs) as Hk. revert Hk.
  unfold Sample.sample_export.
  destruct (Disk.locate Sample.cwd fs _) as [l|] eqn:Hl; [|discriminate].
  destruct (is_dir_at fs l) eqn:Hd; [discriminate|]. cbn.
  intros Hk [= <-]. unfold os_path_isdir, Disk.lookup_path.
  rewrite (locate_keeps _ _ _ _ _ Hk Hl).
  destruct l as [|c l]; [discriminate|]. cbn. by rewrite lookup_insert_eq.
Qed.


Lemma option_pair_eta {A : Type} (o : option (A * tree)) (a : A) :
  fst <$> o = Some a -> o = Some (a, from_option snd ∅ o).
Proof. destruct o as [[a' m]|]; cbn; [by intros [= ->] | discriminate]. Qed.

(* ===================================================================== *)
(** ** Where the code departs from a reading of it *)
(* ===================================================================== *)

Section Departures.

Local Abbreviation convert :=
  (Script.convert_yolov8_to_onnx Sample.cwd Sample.dir_st_size Sample.sample).
Local Abbreviation main := (Script.main Sample.cwd Sample.dir_st_size Sample.sample).
Local Abbreviation run_batch :=
  (Script.run_batch Sample.cwd Sample.dir_st_size Sample.sample).
Local Abbreviation exported := (Observe.exported Sample.cwd Sample.sample).
Local Abbreviation lookup_path := (Disk.lookup_path Sample.cwd).

(** C3.  A directory that already has the name of the output file makes
    [shutil.move] put the exported file inside it: the conversion
    returns the output path, and that path is the directory, not the
    file. *)
Lemma output_path_may_be_a_directory :
  ~ (forall cwd dir_st_size ultralytics model_path output_dir fs onnx_path fs2 data out,
       Observe.exported cwd ultralytics model_path output_dir fs = Some (onnx_path, fs2) ->
       Disk.lookup_path cwd fs2 onnx_path = Some (File data) ->
       result (Script.convert_yolov8_to_onnx cwd dir_st_size ultralytics
                 model_path output_dir fs) = Return out ->
       Disk.lookup_path cwd
         (disk (Script.convert_yolov8_to_onnx cwd dir_st_size ultralytics
                  model_path output_dir fs)) out
       = Some (File data)).
Proof.
  intros H.
  pose (o := exported "api/yolov8n-pose.pt" "public/models" Sample.project_output_is_dir).
  assert (Ho : o = Some ("api/yolov8n-pose.onnx", from_option snd ∅ o))
    by (apply option_pair_eta; vm_compute; reflexivity).
  assert (Hsrc : lookup_path (from_option snd ∅ o) "api/yolov8n-pose.onnx"
                 = Some (File "graph of nano weights"))
    by (vm_compute; reflexivity).
  assert (Hret : result (convert "api/yolov8n-pose.pt" "public/models"
                           Sample.project_output_is_dir)
                 = Return "public/models/yolov8n-pose.onnx")
    by (vm_compute; reflexivity).
  assert (Hdir : lookup_path
            (disk (convert "api/yolov8n-pose.pt" "public/models"
                     Sample.project_output_is_dir))
            "public/models/yolov8n-pose.onnx" = Some Dir)
    by (vm_compute; reflexivity).
  rewrite (H _ _ _ _ _ _ _ _ _ _ Ho Hsrc Hret) in Hdir. discriminate.
Qed.

(** The same run, read off: the file is one level further down. *)
Lemma output_path_is_a_directory_run :
  result (convert "api/yolov8n-pose.pt" "public/models" Sample.project_output_is_dir)
  = Return "public/models/yolov8n-pose.onnx"
  /\ lookup_path
       (disk (convert "api/yolov8n-pose.pt" "public/models" Sample.project_output_is_dir))
       "public/models/yolov8n-pose.onnx" = Some Dir
  /\ lookup_path
       (disk (convert "api/yolov8n-pose.pt" "public/models" Sample.project_output_is_dir))
       "public/models/yolov8n-pose.onnx/yolov8n-pose.onnx"
     = Some (File "graph of nano weights").
Proof. vm_compute. done. Qed.

(** C5.  The output directory is created inside the conversion and so
    inside the [try] of the loop: with a regular file named [public] in
    the way, creating [public/models] fails for both checkpoints, and
    [main] still returns. *)
Lemma makedirs_failure_is_not_fatal :
  ~ (forall cwd dir_st_size ultralytics fs e,
       (exists p, In p Script.models /\ os_path_exists cwd fs p = true) ->
       (os_makedirs_exist_ok cwd Script.default_output_dir fs).1 = Raise e ->
       result (Script.main cwd dir_st_size ultralytics fs) = Raise e).
Proof.
  intros H.
  assert (Hp : os_path_exists Sample.cwd Sample.project_public_is_file
                 "api/yolov8n-pose.pt" = true)
    by (vm_compute; reflexivity).
  assert (Hmk : (os_makedirs_exist_ok Sample.cwd Script.default_output_dir
                   Sample.project_public_is_file).1
                = Raise (NotADirectoryError "public/models"))
    by (vm_compute; reflexivity).
  assert (Hret : result (main Sample.project_public_is_file) = Return tt)
    by (vm_compute; reflexivity).
  rewrite (H Sample.cwd Sample.dir_st_size Sample.sample _ _
             (ex_intro _ "api/yolov8n-pose.pt" (conj (or_introl eq_refl) Hp)) Hmk)
    in Hret.
  discriminate.
Qed.

(** C6.  The size is asked for and printed by the conversion itself,
    before it returns. *)
Lemma convert_logs_the_size :
  ~ (forall cwd dir_st_size ultralytics model_path output_dir fs,
       sizes_logged (trace (Script.convert_yolov8_to_onnx cwd dir_st_size ultralytics
                              model_path output_dir fs)) = []).
Proof.
  intros H.
  assert (Hsize : sizes_logged
            (trace (convert "api/yolov8n-pose.pt" "public/models" Sample.project))
          = [(inject_Z 21 / inject_Z (1024 * 1024))%Q])
    by (vm_compute; reflexivity).
  rewrite H in Hsize. discriminate.
Qed.

(** C9.  When the exporter writes its file at the output path already (a
    checkpoint kept in the output directory), the source and the target
    of the move are one place, [os.rename] changes nothing, and the file
    is still at the path the exporter returned. *)
Lemma exported_file_may_stay :
  ~ (forall cwd dir_st_size ultralytics model_path output_dir fs onnx_path fs2 out,
       Observe.exported cwd ultralytics model_path output_dir fs = Some (onnx_path, fs2) ->
       result (Script.convert_yolov8_to_onnx cwd dir_st_size ultralytics
                 model_path output_dir fs) = Return out ->
       os_path_isdir cwd fs2 onnx_path = false ->
       os_path_exists cwd
         (disk (Script.convert_yolov8_to_onnx cwd dir_st_size ultralytics
                  model_path output_dir fs)) onnx_path
       = false).
Proof.
  intros H.
  pose (o := exported "public/models/yolov8n-pose.pt" "public/models"
               Sample.project_in_place).
  assert (Ho : o = Some ("public/models/yolov8n-pose.onnx", from_option snd ∅ o))
    by (apply option_pair_eta; vm_compute; reflexivity).
  assert (Hret : result (convert "public/models/yolov8n-pose.pt" "public/models"
                           Sample.project_in_place)
                 = Return "public/models/yolov8n-pose.onnx")
    by (vm_compute; reflexivity).
  assert (Hfile : os_path_isdir Sample.cwd (from_option snd ∅ o)
                    "public/models/yolov8n-pose.onnx" = false)
    by (vm_compute; reflexivity).
  assert (Hstays : os_path_exists Sample.cwd
            (disk (convert "public/models/yolov8n-pose.pt" "public/models"
                     Sample.project_in_place))
            "public/models/yolov8n-pose.onnx" = true)
    by (vm_compute; reflexivity).
  rewrite (H _ _ _ _ _ _ _ _ _ Ho Hret Hfile) in Hstays. discriminate.
Qed.

(** C8.  A directory that has the name of an output file is not
    replaced.  The first run puts the exported file inside it; on the
    disk that run leaves, the conversion of the same checkpoint finds
    the output path taken, exports its file, and the move fails: the
    conversion raises, and nothing is replaced. *)
Lemma rerun_may_fail :
  ~ (forall cwd dir_st_size ultralytics model_path output_dir fs onnx_path fs2 data,
       Observe.exported cwd ultralytics model_path output_dir fs = Some (onnx_path, fs2) ->
       Disk.lookup_path cwd fs2 onnx_path = Some (File data) ->
       os_path_exists cwd fs2 (output_path_of model_path output_dir) = true ->
       result (Script.convert_yolov8_to_onnx cwd dir_st_size ultralytics
                 model_path output_dir fs)
       = Return (output_path_of model_path output_dir)).
Proof.
  intros H.
  pose (o := exported "api/yolov8n-pose.pt" "public/models"
               (disk (main Sample.project_output_is_dir))).
  assert (Ho : o = Some ("api/yolov8n-pose.onnx", from_option snd ∅ o))
    by (apply option_pair_eta; vm_compute; reflexivity).
  assert (Hsrc : lookup_path (from_option snd ∅ o) "api/yolov8n-pose.onnx"
                 = Some (File "graph of nano weights"))
    by (vm_compute; reflexivity).
  assert (Hdst : os_path_exists Sample.cwd (from_option snd ∅ o)
                   (output_path_of "api/yolov8n-pose.pt" "public/models") = true)
    by (vm_compute; reflexivity).
  assert (Hraise : result (convert "api/yolov8n-pose.pt" "public/models"
                             (disk (main Sample.project_output_is_dir)))
                   = Raise (ShutilError "Destination path already exists"))
    by (vm_compute; reflexivity).
  rewrite (H _ Sample.dir_st_size _ _ _ _ _ _ _ Ho Hsrc Hdst) in Hraise. discriminate.
Qed.

(** The two runs, read off: the first converts both checkpoints, the
    second only the second one; it prints the error of the move for the
    first, whose exported file stays beside the checkpoint, and the
    output path is still the directory. *)
Lemma rerun_on_directory_run :
  result (run_batch Script.models Sample.project_output_is_dir)
  = Return ["public/models/yolov8n-pose.onnx"; "public/models/yolov8s-pose.onnx"]
  /\ result (run_batch Script.models
               (disk (run_batch Script.models Sample.project_output_is_dir)))
     = Return ["public/models/yolov8s-pose.onnx"]
  /\ errors (trace (run_batch Script.models
                      (disk (run_batch Script.models Sample.project_output_is_dir))))
     = [("api/yolov8n-pose.pt", ShutilError "Destination path already exists")]
  /\ os_path_exists Sample.cwd
       (disk (run_batch Script.models
                (disk (run_batch Script.models Sample.project_output_is_dir))))
       "api/yolov8n-pose.onnx" = true
  /\ lookup_path
       (disk (run_batch Script.models
                (disk (run_batch Script.models Sample.project_output_is_dir))))
       "public/models/yolov8n-pose.onnx" = Some Dir.
Proof. vm_compute. done. Qed.

End Departures.

(* ===================================================================== *)
(** ** Runs on the sample project *)
(* ===================================================================== *)

Section Runs.

Local Abbreviation convert :=
  (Script.convert_yolov8_to_onnx Sample.cwd Sample.dir_st_size Sample.sample).
Local Abbreviation for_model_path :=
  (Script.for_model_path Sample.cwd Sample.dir_st_size Sample.sample).
Local Abbreviation run_batch :=
  (Script.run_batch Sample.cwd Sample.dir_st_size Sample.sample).
Local Abbreviation main := (Script.main Sample.cwd Sample.dir_st_size Sample.sample).
Local Abbreviation exported := (Observe.exported Sample.cwd Sample.sample).
Local Abbreviation lookup_path := (Disk.lookup_path Sample.cwd).
Local Abbreviation makedirs := (os_makedirs_exist_ok Sample.cwd).

Local Abbreviation nano := "api/yolov8n-pose.pt" (only parsing).
Local Abbreviation small := "api/yolov8s-pose.pt" (only parsing).
Local Abbreviation nano_onnx := "api/yolov8n-pose.onnx" (only parsing).
Local Abbreviation nano_out := "public/models/yolov8n-pose.onnx" (only parsing).


(** The first checkpoint is missing; and a project without checkpoints. *)
Lemma missing_checkpoint_skipped_witness :
  for_model_path ([] ++ nano :: [small]) [] Sample.project_first_missing
  = after (trace (for_model_path [] [] Sample.project_first_missing)
           ++ [Call_exists nano; Print (Model_not_found nano)])
          (for_model_path [small] []
             (disk (for_model_path [] [] Sample.project_first_missing)))
  /\ result (run_batch Script.models Sample.project_bare) = Return []
  /\ disk (run_batch Script.models Sample.project_bare) = Sample.project_bare.
Proof.
  pose proof (missing_checkpoint_skipped Sample.cwd Sample.dir_st_size Sample.sample)
    as [Hstep Hall].
  split.
  - apply Hstep; vm_compute; reflexivity.
  - assert (Hmissing : forall p, In p Script.models ->
              os_path_exists Sample.cwd Sample.project_bare p = false).
    { intros p [<-|[<-|[]]]; vm_compute; reflexivity. }
    destruct (Hall Script.models Sample.project_bare Hmissing) as (Hr & Hd & _).
    split; [exact Hr | exact Hd].
Defined.

(** The first checkpoint of the project, converted. *)
Lemma convert_relocates_witness :
  lookup_path (disk (convert nano "public/models" Sample.project)) nano_out
  = Some (File "graph of nano weights")
  /\ lookup_path (disk (convert nano "public/models" Sample.project_output_is_dir))
       nano_out = Some Dir
  /\ lookup_path (disk (convert nano "public/models" Sample.project_output_is_dir))
       "public/models/yolov8n-pose.onnx/yolov8n-pose.onnx"
     = Some (File "graph of nano weights").
Proof.
  split.
  - pose (o := exported nano "public/models" Sample.project).
    assert (Ho : o = Some (nano_onnx, from_option snd ∅ o))
      by (apply option_pair_eta; vm_compute; reflexivity).
    assert (Hsrc : lookup_path (from_option snd ∅ o) nano_onnx
                   = Some (File "graph of nano weights"))
      by (vm_compute; reflexivity).
    assert (Hnd : os_path_isdir Sample.cwd (from_option snd ∅ o) nano_out = false)
      by (vm_compute; reflexivity).
    assert (Hret : result (convert nano "public/models" Sample.project) = Return nano_out)
      by (vm_compute; reflexivity).
    destruct (convert_relocates Sample.cwd Sample.dir_st_size Sample.sample
                nano "public/models" Sample.project nano_out Hret)
      as (_ & _ & _ & onnx_path & fs2 & Hex & Hmoved).
    assert (Heq : Some (onnx_path, fs2) = Some (nano_onnx, from_option snd ∅ o))
      by (rewrite <- Hex; exact Ho).
    injection Heq as -> ->.
    exact (proj1 (Hmoved _ Hsrc) Hnd).
  - pose (o := exported nano "public/models" Sample.project_output_is_dir).
    assert (Ho : o = Some (nano_onnx, from_option snd ∅ o))
      by (apply option_pair_eta; vm_compute; reflexivity).
    assert (Hsrc : lookup_path (from_option snd ∅ o) nano_onnx
                   = Some (File "graph of nano weights"))
      by (vm_compute; reflexivity).
    assert (Hdir : os_path_isdir Sample.cwd (from_option snd ∅ o) nano_out = true)
      by (vm_compute; reflexivity).
    assert (Hret : result (convert nano "public/models" Sample.project_output_is_dir)
                   = Return nano_out)
      by (vm_compute; reflexivity).
    destruct (convert_relocates Sample.cwd Sample.dir_st_size Sample.sample
                nano "public/models" Sample.project_output_is_dir nano_out Hret)
      as (_ & _ & _ & onnx_path & fs2 & Hex & Hmoved).
    assert (Heq : Some (onnx_path, fs2) = Some (nano_onnx, from_option snd ∅ o))
      by (rewrite <- Hex; exact Ho).
    injection Heq as -> ->.
    exact (proj2 (Hmoved _ Hsrc) Hdir).
Defined.

Lemma export_arguments_fixed_witness :
  exports (trace (convert nano "public/models" Sample.project))
  = [ {| format := "onnx"; imgsz := 640; dynamic := true;
         simplify := true; opset := 12 |} ].
Proof.
  apply (proj2 (export_arguments_fixed Sample.cwd Sample.dir_st_size Sample.sample
                  nano "public/models" Sample.project));
    vm_compute; reflexivity.
Defined.

(** A damaged checkpoint and a directory that cannot be created: the
    error is printed and the loop goes on. *)
Lemma conversion_errors_are_caught_witness :
  for_model_path (nano :: [small]) [] Sample.project_first_corrupt
  = after (Call_exists nano
           :: trace (convert nano Script.default_output_dir Sample.project_first_corrupt)
           ++ [Print (Error_converting nano (Foreign true "invalid checkpoint"))])
          (for_model_path [small] []
             (disk (convert nano Script.default_output_dir Sample.project_first_corrupt)))
  /\ (convert nano Script.default_output_dir Sample.project_public_is_file
      = {| result := Raise (NotADirectoryError "public/models");
           disk := (makedirs Script.default_output_dir Sample.project_public_is_file).2;
           trace := banner nano Script.default_output_dir |}
      /\ is_Exception (NotADirectoryError "public/models") = true)
  /\ for_model_path (nano :: [small]) [] Sample.project_public_is_file
     = after (Call_exists nano :: banner nano Script.default_output_dir
              ++ [Print (Error_converting nano (NotADirectoryError "public/models"))])
             (for_model_path [small] []
                (makedirs Script.default_output_dir Sample.project_public_is_file).2).
Proof.
  pose proof (conversion_errors_are_caught Sample.cwd Sample.dir_st_size Sample.sample)
    as (Hcaught & Hconvert & Hmk).
  split; [apply Hcaught; vm_compute; reflexivity|].
  split; [apply Hconvert; vm_compute; reflexivity|].
  apply Hmk; vm_compute; reflexivity.
Defined.

Lemma size_logged_by_convert_witness :
  (exists size,
     Disk.os_path_getsize Sample.cwd Sample.dir_st_size
       (disk (convert nano "public/models" Sample.project)) nano_out = Return size
     /\ sizes_logged (trace (convert nano "public/models" Sample.project))
        = [(inject_Z size / inject_Z (1024 * 1024))%Q]
     /\ last (trace (convert nano "public/models" Sample.project))
        = Some (Print (File_size_MB (inject_Z size / inject_Z (1024 * 1024)))))
  /\ length (sizes_logged (trace (run_batch Script.models Sample.project)))
     = length [nano_out; "public/models/yolov8s-pose.onnx"].
Proof.
  pose proof (size_logged_by_convert Sample.cwd Sample.dir_st_size Sample.sample)
    as [Hconvert Hbatch].
  split.
  - apply Hconvert. vm_compute; reflexivity.
  - apply Hbatch. vm_compute; reflexivity.
Defined.

Lemma directory_created_before_move_witness :
  ((makedirs "public/models" Sample.project).1 = Return tt
   /\ os_path_isdir Sample.cwd (makedirs "public/models" Sample.project).2
        "public/models" = true
   /\ (exists t1 t2,
         trace (convert nano "public/models" Sample.project)
         = t1 ++ Call_move nano_onnx nano_out :: t2
         /\ In (Call_makedirs "public/models") t1)
   /\ os_path_isdir Sample.cwd (disk (convert nano "public/models" Sample.project))
        "public/models" = true)
  /\ (makedirs "public/models" Sample.project_in_place
      = (Return tt, Sample.project_in_place)
      /\ In (Call_YOLO nano)
           (trace (convert nano "public/models" Sample.project_in_place)))
  /\ (is_dir_at Sample.project ["work"; "public"] = false
      /\ is_dir_at (makedirs "public/models" Sample.project).2 ["work"; "public"] = true
      /\ is_dir_at (makedirs "public/models" Sample.project).2
           ["work"; "public"; "models"] = true)
  /\ (os_path_exists Sample.cwd Sample.project "dist" = false
      /\ (makedirs "dist/web/models" Sample.project).1 = Return tt
      /\ is_dir_at (makedirs "dist/web/models" Sample.project).2
           ["work"; "dist"; "web"; "models"] = true
      /\ In (Call_YOLO nano) (trace (convert nano "dist/web/models" Sample.project)))
  /\ (result (convert nano "dist/web/models" Sample.project_first_corrupt)
      = Raise (Foreign true "invalid checkpoint")
      /\ os_path_isdir Sample.cwd
           (disk (convert nano "dist/web/models" Sample.project_first_corrupt))
           "dist/web/models" = true).
Proof.
  split; [|split; [|split; [|split]]].
  - assert (Hin : In (Call_move nano_onnx nano_out)
                    (trace (convert nano "public/models" Sample.project)))
      by (vm_compute; auto 10).
    destruct (proj1 (directory_created_before_move Sample.cwd Sample.dir_st_size
                       Sample.sample nano "public/models" Sample.project)
                _ _ Hin)
      as (Hmk & Hdir & Htrace & fs2 & _ & _ & Hlib).
    split; [exact Hmk|]. split; [exact Hdir|]. split; [exact Htrace|].
    exact (proj2 (Hlib sample_YOLO_keeps_dirs sample_export_keeps_dirs)
             sample_export_returns_file).
  - apply (proj1 (proj2 (directory_created_before_move Sample.cwd Sample.dir_st_size
                    Sample.sample nano "public/models" Sample.project_in_place))).
    vm_compute; reflexivity.
  - split; [vm_compute; reflexivity|].
    refine (proj2 (proj1 (proj2 (proj2 (directory_created_before_move
                     Sample.cwd Sample.dir_st_size Sample.sample
                     nano "public/models" Sample.project)))
                     eq_refl _ _ _)).
    + vm_compute; reflexivity.
    + intros data. vm_compute. discriminate.
    + intros data. vm_compute. discriminate.
  - split; [vm_compute; reflexivity|].
    destruct (proj1 (proj2 (proj2 (proj2 (directory_created_before_move
                Sample.cwd Sample.dir_st_size Sample.sample
                nano "dist/web/models" Sample.project)))))
      as (Hmk & Hall & _ & Hload).
    + discriminate.
    + vm_compute; reflexivity.
    + vm_compute. intuition discriminate.
    + intros l data Hl. vm_compute in Hl.
      destruct Hl as [<-|[<-|[<-|[]]]]; vm_compute; discriminate.
    + split; [exact Hmk|]. split; [|exact Hload].
      apply Hall. vm_compute. auto.
  - split; [vm_compute; reflexivity|].
    apply (proj2 (proj2 (proj2 (proj2 (directory_created_before_move
             Sample.cwd Sample.dir_st_size Sample.sample
             nano "dist/web/models" Sample.project_first_corrupt))))
             sample_YOLO_keeps_dirs sample_export_keeps_dirs
             sample_export_returns_file).
    vm_compute; reflexivity.
Defined.

(** A second run, on the disk a run of [main] has left, and the second
    conversion of the first checkpoint in it. *)
Lemma rerun_replaces_outputs_witness :
  result (run_batch Script.models (disk (main Sample.project)))
  = Return [nano_out; "public/models/yolov8s-pose.onnx"]
  /\ result (convert nano "public/models" (disk (main Sample.project)))
     = Return (output_path_of nano "public/models")
  /\ lookup_path (disk (convert nano "public/models" (disk (main Sample.project))))
       (output_path_of nano "public/models")
     = Some (File "graph of nano weights").
Proof.
  pose proof (rerun_replaces_outputs Sample.cwd Sample.dir_st_size Sample.sample)
    as [Hbatch Hconvert].
  split.
  { apply (Hbatch Script.models (disk (main Sample.project))).
    vm_compute; reflexivity. }
  pose (o := exported nano "public/models" (disk (main Sample.project))).
  assert (Ho : o = Some (nano_onnx, from_option snd ∅ o))
    by (apply option_pair_eta; vm_compute; reflexivity).
  assert (Hsrc : lookup_path (from_option snd ∅ o) nano_onnx
                 = Some (File "graph of nano weights"))
    by (vm_compute; reflexivity).
  assert (Hdst : lookup_path (from_option snd ∅ o) (output_path_of nano "public/models")
                 = Some (File "graph of nano weights"))
    by (vm_compute; reflexivity).
  destruct (Hconvert nano "public/models" (disk (main Sample.project)) nano_onnx
              (from_option snd ∅ o) "graph of nano weights" "graph of nano weights"
              Ho Hsrc Hdst) as (Hr & Hl & _).
  split; [exact Hr | exact Hl].
Defined.

(** Two runs of [main] leave the disk one run leaves, with one output
    file for each checkpoint. *)
Lemma main_twice_same_disk :
  result (main (disk (main Sample.project))) = Return tt
  /\ map_to_list (disk (main (disk (main Sample.project))))
     = map_to_list (disk (main Sample.project))
  /\ lookup_path (disk (main (disk (main Sample.project)))) nano_out
     = Some (File "graph of nano weights")
  /\ lookup_path (disk (main (disk (main Sample.project))))
       "public/models/yolov8s-pose.onnx"
     = Some (File "graph of small weights").
Proof. vm_compute. done. Qed.

Lemma exported_file_moved_away_witness :
  os_path_exists Sample.cwd (disk (convert nano "public/models" Sample.project))
    nano_onnx = false.
Proof.
  pose (o := exported nano "public/models" Sample.project).
  assert (Ho : o = Some (nano_onnx, from_option snd ∅ o))
    by (apply option_pair_eta; vm_compute; reflexivity).
  assert (Hret : result (convert nano "public/models" Sample.project) = Return nano_out)
    by (vm_compute; reflexivity).
  assert (Hfile : os_path_isdir Sample.cwd (from_option snd ∅ o) nano_onnx = false)
    by (vm_compute; reflexivity).
  assert (Hne : Disk.locate Sample.cwd (from_option snd ∅ o) nano_onnx
                <> Disk.locate Sample.cwd (from_option snd ∅ o) nano_out)
    by (vm_compute; discriminate).
  exact (proj1
    (exported_file_moved_away Sample.cwd Sample.dir_st_size Sample.sample
       nano "public/models" Sample.project nano_onnx (from_option snd ∅ o)
       nano_out Ho Hret Hfile Hne)).
Defined.

(** The damaged checkpoint: the conversion raises, and [public/models],
    which was not there before, is. *)
Lemma failed_convert_keeps_directory_witness :
  os_path_isdir Sample.cwd Sample.project_first_corrupt "public/models" = false
  /\ result (convert nano "public/models" Sample.project_first_corrupt)
     = Raise (Foreign true "invalid checkpoint")
  /\ os_path_isdir Sample.cwd
       (disk (convert nano "public/models" Sample.project_first_corrupt))
       "public/models" = true.
Proof.
  assert (Hmk : (makedirs "public/models" Sample.project_first_corrupt).1 = Return tt)
    by (vm_compute; reflexivity).
  assert (Hraise : result (convert nano "public/models" Sample.project_first_corrupt)
                   = Raise (Foreign true "invalid checkpoint"))
    by (vm_compute; reflexivity).
  split; [vm_compute; reflexivity|]. split; [exact Hraise|].
  exact (proj1
    (failed_convert_keeps_directory Sample.cwd Sample.dir_st_size Sample.sample
       nano "public/models" Sample.project_first_corrupt
       (Foreign true "invalid checkpoint")
       sample_YOLO_keeps_dirs sample_export_keeps_dirs sample_export_returns_file
       Hmk Hraise)).
Defined.

End Runs.

(* ===================================================================== *)
(** ** More about the batch *)
(* ===================================================================== *)

Section BatchAccount.

Variable cwd : list string.
Variable dir_st_size : Z.
Variable ultralytics : Ultralytics.

Local Abbreviation convert := (Script.convert_yolov8_to_onnx cwd dir_st_size ultralytics).
Local Abbreviation for_model_path := (Script.for_model_path cwd dir_st_size ultralytics).
Local Abbreviation run_batch := (Script.run_batch cwd dir_st_size ultralytics).
Local Abbreviation out_of := (fun p => output_path_of p Script.default_output_dir).

(** A conversion asks about no existence, reports nothing as missing or
    failed, and prints no summary line. *)
Lemma convert_quiet model_path output_dir fs :
  exists_checked (trace (convert model_path output_dir fs)) = []
  /\ not_found (trace (convert model_path output_dir fs)) = []
  /\ errors (trace (convert model_path output_dir fs)) = []
  /\ counts (trace (convert model_path output_dir fs)) = []
  /\ items (trace (convert model_path output_dir fs)) = [].
Proof. stages; repeat split; reflexivity. Qed.

Lemma summary_account l :
  exists_checked (summary l) = [] /\ not_found (summary l) = []
  /\ errors (summary l) = [] /\ counts (summary l) = [length l]
  /\ items (summary l) = l.
Proof.
  unfold summary, exists_checked, not_found, errors, counts, items.
  rewrite !omap_app. cbn.
  assert (H : forall A (f : event -> option A),
            (forall p, f (Print (Converted_item p)) = None) ->
            omap f (map (fun path => Print (Converted_item path)) l) = []).
  { intros A f Hf. induction l as [|x l' IH]; [done|]. cbn. by rewrite Hf. }
  rewrite !H by done. repeat split; try reflexivity.
  rewrite app_nil_r. clear H. induction l as [|x l' IH]; [done|].
  cbn. by rewrite IH.
Qed.

(** What the loop leaves in the trace, by induction on the registry. *)
Lemma for_model_path_account models : forall acc fs l,
  result (for_model_path models acc fs) = Return l ->
  let t := trace (for_model_path models acc fs) in
  exists_checked t = models
  /\ counts t = [] /\ items t = []
  /\ (length models + length acc
      = length (not_found t) + length (errors t) + length l)%nat
  /\ (forall p, In p (not_found t) -> In p models)
  /\ (forall p e, In (p, e) (errors t) -> In p models /\ is_Exception e = true)
  /\ (exists l', l = acc ++ l' /\ l' `sublist_of` map out_of models).
Proof.
  induction models as [|p rest IH]; intros acc fs l.
  - cbn. intros [= ->].
    split; [done|]. split; [done|]. split; [done|]. split; [lia|].
    split; [done|]. split; [done|]. exists []. by rewrite app_nil_r.
  - rewrite for_model_path_cons. cbv zeta.
    destruct (os_path_exists cwd fs p).
    + pose proof (convert_quiet p Script.default_output_dir fs) as Hq.
      pose proof (convert_result cwd dir_st_size ultralytics p
                    Script.default_output_dir fs) as Hres.
      revert Hq Hres.
      destruct (convert p Script.default_output_dir fs) as [[out|e0] d tc];
        cbn [result disk trace]; intros (Hq1 & Hq2 & Hq3 & Hq4 & Hq5) Hres.
      * rewrite (Hres out eq_refl). cbn [after result trace]. intros Hl.
        destruct (IH _ _ _ Hl) as (I1 & I2 & I3 & I4 & I5 & I6 & l' & -> & Hsub).
        unfold exists_checked, not_found, errors, counts, items in *.
        rewrite !omap_app. cbn [omap list_omap].
        rewrite Hq1, Hq2, Hq3, Hq4, Hq5, I1, I2, I3. cbn [app].
        split; [done|]. split; [done|]. split; [done|]. split; [|split; [|split]].
        -- rewrite !length_app in *. cbn in *. lia.
        -- intros q Hq. right. by apply I5.
        -- intros q e Hq. destruct (I6 q e Hq). split; [by right | done].
        -- exists (output_path_of p Script.default_output_dir :: l').
           split; [by rewrite <- app_assoc | by constructor].
      * destruct (is_Exception e0) eqn:He; [|discriminate].
        cbn [after result trace]. intros Hl.
        destruct (IH _ _ _ Hl) as (I1 & I2 & I3 & I4 & I5 & I6 & l' & -> & Hsub).
        unfold exists_checked, not_found, errors, counts, items in *.
        rewrite !omap_app. cbn [omap list_omap].
        rewrite !omap_app.
        rewrite Hq1, Hq2, Hq3, Hq4, Hq5, I1, I2, I3. cbn [omap list_omap app].
        split; [done|]. split; [done|]. split; [done|]. split; [|split; [|split]].
        -- cbn [length]. rewrite !length_app in *. cbn in *. lia.
        -- intros q Hq. right. by apply I5.
        -- intros q e [[= <- <-]|Hq]; [split; [by left | done]|].
           destruct (I6 q e Hq). split; [by right | done].
        -- exists l'. split; [done | by constructor].
    + cbn [after result trace]. intros Hl.
      destruct (IH _ _ _ Hl) as (I1 & I2 & I3 & I4 & I5 & I6 & l' & -> & Hsub).
      unfold exists_checked, not_found, errors, counts, items in *.
      rewrite !omap_app. cbn [omap list_omap].
      rewrite I1, I2, I3. cbn [app].
      split; [done|]. split; [done|]. split; [done|]. split; [|split; [|split]].
      * cbn [length]. rewrite !length_app in *. cbn in *. lia.
      * intros q [<-|Hq]; [by left | right; by apply I5].
      * intros q e Hq. destruct (I6 q e Hq). split; [by right | done].
      * exists l'. split; [done | by constructor].
Qed.

End BatchAccount.

Section BatchExtras.

Variable cwd : list string.
Variable dir_st_size : Z.
Variable ultralytics : Ultralytics.

Local Abbreviation convert := (Script.convert_yolov8_to_onnx cwd dir_st_size ultralytics).
Local Abbreviation for_model_path := (Script.for_model_path cwd dir_st_size ultralytics).
Local Abbreviation run_batch := (Script.run_batch cwd dir_st_size ultralytics).
Local Abbreviation makedirs := (os_makedirs_exist_ok cwd).

(** X1. The summary of a batch that returns reports the list the loop
    has built: one count line, with the length of that list, and one
    item line for each of its paths, in order; no such line is printed
    before the summary. *)
Theorem summary_reports_converted models fs l :
  result (run_batch models fs) = Return l ->
  counts (trace (run_batch models fs)) = [length l]
  /\ items (trace (run_batch models fs)) = l.
Proof.
  rewrite run_batch_cases. cbv zeta.
  destruct (result (for_model_path models [] fs)) as [l0|e] eqn:Hl; [|discriminate].
  cbn [result trace]. intros [= ->].
  destruct (for_model_path_account cwd dir_st_size ultralytics _ _ _ _ Hl)
    as (_ & Hc & Hi & _).
  destruct (summary_account l) as (_ & _ & _ & Sc & Si).
  cbv zeta in Hc, Hi. unfold counts, items in *.
  rewrite !omap_app, Hc, Hi, Sc, Si. done.
Qed.

(** X2. In a batch that returns, every checkpoint of the registry is
    looked for exactly once, in order, and ends in exactly one of three
    ways: reported as not found, reported as failed, or converted.  The
    reports name checkpoints of the registry only, and a reported
    failure is an instance of [Exception]. *)
Theorem every_checkpoint_accounted models fs l :
  result (run_batch models fs) = Return l ->
  let t := trace (run_batch models fs) in
  exists_checked t = models
  /\ length models = (length (not_found t) + length (errors t) + length l)%nat
  /\ (forall p, In p (not_found t) -> In p models)
  /\ (forall p e, In (p, e) (errors t) -> In p models /\ is_Exception e = true).
Proof.
  rewrite run_batch_cases. cbv zeta.
  destruct (result (for_model_path models [] fs)) as [l0|e] eqn:Hl; [|discriminate].
  cbn [result trace]. intros [= ->].
  destruct (for_model_path_account cwd dir_st_size ultralytics _ _ _ _ Hl)
    as (He & _ & _ & Hn & Hnf & Herr & _).
  destruct (summary_account l) as (Se & Sn & Sr & _ & _).
  cbv zeta in He, Hn, Hnf, Herr. unfold exists_checked, not_found, errors in *.
  rewrite !omap_app, He, Se, Sn, Sr. cbn [omap list_omap app].
  rewrite !app_nil_r. cbn in Hn. rewrite Nat.add_0_r in Hn. done.
Qed.

(** X3. The list a batch hands back follows the registry: it is the
    list of output paths of the registry with some entries left out, so
    it is never longer than the registry, and each of its paths is
    [public/models/<name>.onnx] for the file name of a checkpoint of the
    registry without its extension. *)
Theorem converted_paths_follow_registry models fs l :
  result (run_batch models fs) = Return l ->
  l `sublist_of` map (fun p => output_path_of p Script.default_output_dir) models
  /\ length l <= length models
  /\ (forall out, In out l ->
        exists p, In p models
          /\ out = ("public/models/" ++ (splitext (basename p)).1 ++ ".onnx")%string).
Proof.
  rewrite run_batch_cases. cbv zeta.
  destruct (result (for_model_path models [] fs)) as [l0|e] eqn:Hl; [|discriminate].
  cbn [result]. intros [= ->].
  destruct (for_model_path_account cwd dir_st_size ultralytics _ _ _ _ Hl)
    as (_ & _ & _ & _ & _ & _ & l' & -> & Hsub).
  cbn [app]. split; [done|]. split.
  - apply sublist_length in Hsub. by rewrite length_map in Hsub.
  - intros out Hin. apply list_elem_of_In in Hin.
    pose proof (elem_of_sublist _ _ _ Hin Hsub) as Hmem.
    apply list_elem_of_In, in_map_iff in Hmem as (p & <- & Hp).
    exists p. split; [done|].
    unfold output_path_of. rewrite join_plain; [reflexivity | | done..].
    apply output_name_relative.
Qed.

(** The list the loop starts with is only a prefix of its result. *)
Lemma for_model_path_acc models : forall acc fs,
  result (for_model_path models acc fs)
  = match result (for_model_path models [] fs) with
    | Return l => Return (acc ++ l)
    | Raise e => Raise e
    end
  /\ disk (for_model_path models acc fs) = disk (for_model_path models [] fs)
  /\ trace (for_model_path models acc fs) = trace (for_model_path models [] fs).
Proof.
  induction models as [|p rest IH]; intros acc fs.
  - cbn. by rewrite app_nil_r.
  - rewrite !for_model_path_cons. cbv zeta.
    destruct (os_path_exists cwd fs p).
    + destruct (convert p Script.default_output_dir fs) as [[out|e] d tc];
        cbn [result disk trace after].
      * destruct (IH (acc ++ [out]) d) as (-> & -> & ->).
        destruct (IH ([] ++ [out]) d) as (-> & -> & ->).
        destruct (result (for_model_path rest [] d)); [|done].
        by rewrite <- app_assoc.
      * destruct (is_Exception e); [|done]. cbn [result disk trace after].
        by destruct (IH acc d) as (-> & -> & ->).
    + cbn [result disk trace after]. by destruct (IH acc fs) as (-> & -> & ->).
Qed.

(** X4. The loop over a registry in two parts: when the first part
    returns [l1] and the second part, run from the disk the first has
    left, returns [l2], the loop over the whole registry returns
    [l1 ++ l2], leaves the disk of the second run and has done what the
    two runs did, one after the other. *)
Theorem batch_in_two_parts pre post fs l1 l2 :
  result (for_model_path pre [] fs) = Return l1 ->
  result (for_model_path post [] (disk (for_model_path pre [] fs))) = Return l2 ->
  result (for_model_path (pre ++ post) [] fs) = Return (l1 ++ l2)
  /\ disk (for_model_path (pre ++ post) [] fs)
     = disk (for_model_path post [] (disk (for_model_path pre [] fs)))
  /\ trace (for_model_path (pre ++ post) [] fs)
     = trace (for_model_path pre [] fs)
       ++ trace (for_model_path post [] (disk (for_model_path pre [] fs))).
Proof.
  intros H1 H2. rewrite for_model_path_app. cbv zeta. rewrite H1.
  cbn [after result disk trace].
  destruct (for_model_path_acc post l1 (disk (for_model_path pre [] fs)))
    as (-> & -> & ->).
  by rewrite H2.
Qed.

Lemma makedirs_blocked fs :
  blocked cwd fs ->
  (exists e, (makedirs Script.default_output_dir fs).1 = Raise e)
  /\ blocked cwd (makedirs Script.default_output_dir fs).2.
Proof.
  intros Hb.
  assert (Hne : cwd ++ ["public"] <> cwd ++ ["public"; "models"]).
  { intros Heq. apply (f_equal length) in Heq. rewrite !length_app in Heq.
    cbn in Heq. lia. }
  unfold os_makedirs_exist_ok, start_of. cbn.
  destruct (is_dir_at fs cwd) eqn:Hcwd; cbn; [|split; [eauto | by left]].
  rewrite node_at_snoc.
  destruct (fs !! (cwd ++ ["public"])) as [[data|]|] eqn:Hp.
  - split; [eauto | right; left; eauto].
  - assert (Hd : is_dir_at fs (cwd ++ ["public"]) = true).
    { apply is_dir_at_node. by rewrite node_at_snoc. }
    cbn. rewrite Hd. cbn. rewrite <- app_assoc. cbn [app]. rewrite node_at_snoc_2.
    destruct (fs !! (cwd ++ ["public"; "models"])) as [[data|]|] eqn:Hm.
    + split; [eauto | right; right; eauto].
    + exfalso. destruct Hb as [?|[[? ?]|[? ?]]]; congruence.
    + exfalso. destruct Hb as [?|[[? ?]|[? ?]]]; congruence.
  - assert (Hd : is_dir_at (<[cwd ++ ["public"] := Dir]> fs) (cwd ++ ["public"]) = true).
    { apply is_dir_at_node. rewrite node_at_snoc. by rewrite lookup_insert_eq. }
    cbn. rewrite Hd. cbn. rewrite <- app_assoc. cbn [app]. rewrite node_at_snoc_2.
    rewrite lookup_insert_ne by done.
    destruct (fs !! (cwd ++ ["public"; "models"])) as [[data|]|] eqn:Hm.
    + split; [eauto|]. right; right. exists data. cbn [snd].
      by rewrite lookup_insert_ne.
    + exfalso. destruct Hb as [?|[[? ?]|[? ?]]]; congruence.
    + exfalso. destruct Hb as [?|[[? ?]|[? ?]]]; congruence.
Qed.

Lemma for_model_path_blocked models : forall acc fs,
  blocked cwd fs ->
  result (for_model_path models acc fs) = Return acc
  /\ loads (trace (for_model_path models acc fs)) = []
  /\ blocked cwd (disk (for_model_path models acc fs)).
Proof.
  induction models as [|p rest IH]; intros acc fs Hb; [done|].
  rewrite for_model_path_cons. cbv zeta.
  destruct (os_path_exists cwd fs p).
  - destruct (makedirs_blocked fs Hb) as [[e He] Hb'].
    rewrite convert_cases. cbv zeta. rewrite He. cbn [result disk trace].
    rewrite (makedirs_raises _ _ _ _ He). cbn [after result disk trace].
    destruct (IH acc _ Hb') as (-> & Hl & Hd). split; [done|]. split; [|done].
    unfold loads in *. rewrite omap_app, Hl. reflexivity.
  - cbn [after result disk trace].
    destruct (IH acc _ Hb) as (-> & Hl & Hd). split; [done|]. split; [|done].
    unfold loads in *. rewrite omap_app, Hl. reflexivity.
Qed.

(** X5. When [public/models] cannot be created (the working directory
    is gone, or [public] or [public/models] is a regular file), a batch
    converts nothing, whatever the registry and the library: it returns
    the empty list and no checkpoint is ever handed to [YOLO]. *)
Theorem blocked_directory_converts_nothing models fs :
  blocked cwd fs ->
  result (run_batch models fs) = Return []
  /\ loads (trace (run_batch models fs)) = [].
Proof.
  intros Hb. destruct (for_model_path_blocked models [] fs Hb) as (Hr & Hl & _).
  rewrite run_batch_cases. cbv zeta. rewrite Hr. cbn [result trace].
  split; [done|]. unfold loads in *. rewrite !omap_app, Hl. reflexivity.
Qed.

End BatchExtras.

(* ===================================================================== *)
(** ** More about paths and one conversion *)
(* ===================================================================== *)

Lemma append_cons a r t : (String a r ++ t)%string = String a (r ++ t)%string.
Proof. reflexivity. Qed.

Lemma append_assoc_str s t u : ((s ++ t) ++ u)%string = (s ++ (t ++ u))%string.
Proof.
  induction s as [|a r IH]; [reflexivity|].
  rewrite !append_cons. by rewrite IH.
Qed.

Lemma rfind_app c s t :
  rfind c (s ++ t) =
  match rfind c t with
  | Some j => Some (String.length s + j)
  | None => rfind c s
  end.
Proof.
  induction s as [|a r IH].
  - change ("" ++ t)%string with t. by destruct (rfind c t).
  - rewrite append_cons. cbn [rfind String.length]. rewrite IH.
    destruct (rfind c t) as [j|]; [reflexivity|].
    by destruct (rfind c r).
Qed.

Lemma drop_str_app s t n :
  drop_str (String.length s + n) (s ++ t) = drop_str n t.
Proof.
  induction s as [|a r IH]; [reflexivity|].
  rewrite append_cons. cbn. exact IH.
Qed.

Lemma take_str_app s t : take_str (String.length s) (s ++ t) = s.
Proof.
  induction s as [|a r IH]; [by destruct t|].
  rewrite append_cons. cbn. by rewrite IH.
Qed.

Lemma endswith_app_sep s : endswith sep (s ++ "/") = true.
Proof.
  induction s as [|a r IH]; [reflexivity|].
  rewrite append_cons. cbn [endswith].
  destruct (r ++ "/")%string eqn:Hr; [by destruct r | exact IH].
Qed.

Lemma has_non_dot_no_sep s : has_non_dot s = false -> rfind sep s = None.
Proof.
  induction s as [|a r IH]; [done|]. cbn [has_non_dot].
  destruct (Ascii.eqb a extsep) eqn:Ha; [|discriminate].
  intros Hr. apply rfind_None_cons. split; [|by apply IH].
  apply Ascii.eqb_eq in Ha as ->. reflexivity.
Qed.

Lemma drop_str_past_sep dir name :
  drop_str (S (String.length dir + 0)) (dir ++ String sep name) = name.
Proof.
  induction dir as [|a r IH]; [reflexivity|].
  rewrite append_cons. exact IH.
Qed.

(** The file name of [dir/name] is [name]. *)
Lemma basename_in_dir dir name :
  rfind sep name = None -> basename (dir ++ "/" ++ name) = name.
Proof.
  intros Hn. unfold basename. rewrite rfind_app.
  change ("/" ++ name)%string with (String sep name).
  cbn [rfind]. rewrite Hn. change (Ascii.eqb sep sep) with true. cbv beta iota.
  apply drop_str_past_sep.
Qed.

(** The three cases of [splitext] on a file name. *)
Lemma splitext_extension stem ext :
  rfind sep stem = None -> rfind sep ext = None -> rfind extsep ext = None ->
  has_non_dot stem = true ->
  splitext (stem ++ "." ++ ext) = (stem, ("." ++ ext)%string).
Proof.
  intros Hs He Hd Hn. unfold splitext. rewrite !rfind_app.
  change ("." ++ ext)%string with (String extsep ext).
  cbn [rfind]. rewrite He, Hd, Hs. cbn.
  rewrite Nat.add_0_r, Nat.sub_0_r, take_str_app, Hn. cbn.
  rewrite <- (Nat.add_0_r (String.length stem)) at 1.
  by rewrite drop_str_app.
Qed.

Lemma splitext_no_extension name :
  rfind extsep name = None -> splitext name = (name, "").
Proof. intros Hd. unfold splitext. by rewrite Hd. Qed.

Lemma splitext_leading_dots dots ext :
  has_non_dot dots = false -> rfind sep ext = None -> rfind extsep ext = None ->
  splitext (dots ++ "." ++ ext) = ((dots ++ "." ++ ext)%string, "").
Proof.
  intros Hn He Hd. unfold splitext. rewrite !rfind_app.
  change ("." ++ ext)%string with (String extsep ext).
  cbn [rfind]. rewrite He, Hd, (has_non_dot_no_sep _ Hn). cbn.
  by rewrite Nat.add_0_r, Nat.sub_0_r, take_str_app, Hn.
Qed.

(** X6. The output path is made from the file name of the checkpoint
    alone: for a checkpoint [dir/stem.ext] it is [stem.onnx] in the
    output directory, whatever [dir] and [ext] are; a name without a dot
    only gets [.onnx] appended; and a name that starts with dots and has
    no other dot (a hidden file) is kept whole, [.onnx] appended. *)
Theorem output_path_from_file_name dir output_dir :
  (forall stem ext,
     rfind sep stem = None -> rfind sep ext = None -> rfind extsep ext = None ->
     has_non_dot stem = true ->
     output_path_of (dir ++ "/" ++ stem ++ "." ++ ext) output_dir
     = join output_dir (stem ++ ".onnx"))
  /\ (forall name,
        rfind sep name = None -> rfind extsep name = None ->
        output_path_of (dir ++ "/" ++ name) output_dir
        = join output_dir (name ++ ".onnx"))
  /\ (forall dots ext,
        has_non_dot dots = false -> rfind sep ext = None -> rfind extsep ext = None ->
        output_path_of (dir ++ "/" ++ dots ++ "." ++ ext) output_dir
        = join output_dir ((dots ++ "." ++ ext) ++ ".onnx")).
Proof.
  assert (Hname : forall s t, rfind sep s = None -> rfind sep t = None ->
            rfind sep (s ++ "." ++ t) = None).
  { intros s t Hs Ht. rewrite rfind_app.
    change ("." ++ t)%string with (String extsep t). cbn [rfind]. by rewrite Ht. }
  split; [|split].
  - intros stem ext Hs He Hd Hn. unfold output_path_of.
    rewrite basename_in_dir by by apply Hname.
    by rewrite splitext_extension.
  - intros name Hs Hd. unfold output_path_of.
    rewrite basename_in_dir by done. by rewrite splitext_no_extension.
  - intros dots ext Hn He Hd. unfold output_path_of.
    rewrite basename_in_dir by (apply Hname; [by apply has_non_dot_no_sep | done]).
    by rewrite splitext_leading_dots.
Qed.

(** X7. A separator at the end of the output directory makes no
    difference to the output path: no separator is doubled. *)
Theorem trailing_separator_ignored model_path output_dir :
  output_dir <> "" -> endswith sep output_dir = false ->
  output_path_of model_path (output_dir ++ "/") = output_path_of model_path output_dir.
Proof.
  intros Hne Hend. unfold output_path_of.
  rewrite (join_plain output_dir) by (apply output_name_relative || done).
  unfold join. rewrite output_name_relative, endswith_app_sep, orb_true_r.
  apply append_assoc_str.
Qed.

Section ConvertExtras.

Variable cwd : list string.
Variable dir_st_size : Z.
Variable ultralytics : Ultralytics.

Local Abbreviation convert := (Script.convert_yolov8_to_onnx cwd dir_st_size ultralytics).
Local Abbreviation exported := (Observe.exported cwd ultralytics).
Local Abbreviation locate := (Disk.locate cwd).
Local Abbreviation move := (Disk.shutil_move cwd).

(** X8. With the empty string for output directory a conversion fails
    at once: [os.makedirs('')] raises [FileNotFoundError], after the
    banner and before the checkpoint is loaded, and the disk is as it
    was. *)
Theorem empty_output_dir_fails_first model_path fs :
  convert model_path "" fs
  = {| result := Raise (FileNotFoundError "");
       disk := fs;
       trace := banner model_path "" |}.
Proof. rewrite convert_cases. reflexivity. Qed.

(** X9. The library calls of a conversion are, in this order, the
    creation of the directory, the load, the export, the move and the
    size, each at most once.  When the exporter returned a path, what a
    conversion calls is an initial part of that sequence in which the
    move is there and is the move of that very path to the output path,
    and it is the whole sequence when the conversion returns.  When the
    conversion did not get a path from the exporter, it raises and its
    calls are an initial part of the first three. *)
Theorem library_calls_in_order model_path output_dir fs :
  (forall onnx_path fs2,
     exported model_path output_dir fs = Some (onnx_path, fs2) ->
     let all :=
       [Call_makedirs output_dir; Call_YOLO model_path;
        Call_export Script.export_args;
        Call_move onnx_path (output_path_of model_path output_dir);
        Call_getsize (output_path_of model_path output_dir)] in
     calls (trace (convert model_path output_dir fs)) `prefix_of` all
     /\ In (Call_move onnx_path (output_path_of model_path output_dir))
          (calls (trace (convert model_path output_dir fs)))
     /\ (returns (result (convert model_path output_dir fs)) = true ->
         calls (trace (convert model_path output_dir fs)) = all))
  /\ (exported model_path output_dir fs = None ->
      calls (trace (convert model_path output_dir fs))
        `prefix_of` [Call_makedirs output_dir; Call_YOLO model_path;
                     Call_export Script.export_args]
      /\ returns (result (convert model_path output_dir fs)) = false).
Proof.
  unfold Observe.exported. rewrite convert_cases. cbv zeta.
  destruct (os_makedirs_exist_ok cwd output_dir fs) as [[[]|e0] fs0]; cbn [fst snd].
  2:{ split; [discriminate|]. intros _. split; [by eexists | reflexivity]. }
  destruct (YOLO ultralytics model_path fs0) as [[model|e1] fs1]; cbn [fst snd].
  2:{ split; [discriminate|]. intros _. split; [by eexists | reflexivity]. }
  destruct (Model_export ultralytics model Script.export_args fs1)
    as [[p|e2] fs2']; cbn [fst snd].
  2:{ split; [discriminate|]. intros _. split; [by eexists | reflexivity]. }
  split; [|discriminate]. intros onnx_path fs2 [= -> ->].
  destruct (move onnx_path _ fs2).1;
    [destruct (Disk.os_path_getsize cwd dir_st_size _ _)|]; cbn.
  all: split; [by eexists|]; split; [auto 10 | try discriminate; try reflexivity].
Qed.

(** X10. Beyond what the library has written, a conversion that
    returns changes the disk in two places only: the place of the
    exported file, and the place it is moved to (the output path, or
    the exported file's name inside it when the output path is a
    directory).  Every other entry is as the export left it. *)
Theorem convert_touches_two_places model_path output_dir fs onnx_path fs2 out :
  exported model_path output_dir fs = Some (onnx_path, fs2) ->
  os_path_isdir cwd fs2 onnx_path = false ->
  result (convert model_path output_dir fs) = Return out ->
  exists s d real_dst,
    locate fs2 onnx_path = Some s
    /\ locate fs2 real_dst = Some d
    /\ (real_dst = out \/ real_dst = join out (shutil_basename onnx_path))
    /\ forall l, l <> s -> l <> d ->
         disk (convert model_path output_dir fs) !! l = fs2 !! l.
Proof.
  intros Hex Hsrc Hret.
  apply convert_result in Hret as Heq. subst out.
  destruct (convert_from_export cwd dir_st_size ultralytics _ _ _ _ _ Hex)
    as [Hres Hdisk].
  rewrite Hdisk. rewrite Hres in Hret. clear Hres Hdisk.
  destruct (move_cases cwd onnx_path (output_path_of model_path output_dir) fs2 Hsrc)
    as [(e & He & _)|(real_dst & s & d & data & _ & Hs & Hn & Hd & Hnd & Hfs & Hreal)].
  { rewrite He in Hret. discriminate. }
  exists s, d, real_dst. split; [done|]. split; [done|]. split.
  - destruct (os_path_isdir cwd fs2 (output_path_of model_path output_dir));
      [right; by destruct Hreal | by left].
  - intros l Hls Hld. rewrite Hfs. unfold file_moved.
    rewrite lookup_insert_ne by done. by rewrite lookup_delete_ne.
Qed.

End ConvertExtras.

(* ===================================================================== *)
(** ** More runs on the sample project *)
(* ===================================================================== *)

Section MoreRuns.

Local Abbreviation convert :=
  (Script.convert_yolov8_to_onnx Sample.cwd Sample.dir_st_size Sample.sample).
Local Abbreviation for_model_path :=
  (Script.for_model_path Sample.cwd Sample.dir_st_size Sample.sample).
Local Abbreviation run_batch :=
  (Script.run_batch Sample.cwd Sample.dir_st_size Sample.sample).
Local Abbreviation exported := (Observe.exported Sample.cwd Sample.sample).

Local Abbreviation nano := "api/yolov8n-pose.pt" (only parsing).
Local Abbreviation small := "api/yolov8s-pose.pt" (only parsing).
Local Abbreviation nano_onnx := "api/yolov8n-pose.onnx" (only parsing).
Local Abbreviation nano_out := "public/models/yolov8n-pose.onnx" (only parsing).
Local Abbreviation small_out := "public/models/yolov8s-pose.onnx" (only parsing).

Lemma summary_reports_converted_witness :
  counts (trace (run_batch Script.models Sample.project_first_corrupt)) = [1%nat]
  /\ items (trace (run_batch Script.models Sample.project_first_corrupt)) = [small_out].
Proof.
  apply (summary_reports_converted Sample.cwd Sample.dir_st_size Sample.sample
           Script.models Sample.project_first_corrupt [small_out]).
  vm_compute; reflexivity.
Defined.

(** Two checkpoints: none missing, one failed, one converted. *)
Lemma every_checkpoint_accounted_witness :
  exists_checked (trace (run_batch Script.models Sample.project_first_corrupt))
  = Script.models
  /\ length Script.models
     = (length (not_found (trace (run_batch Script.models Sample.project_first_corrupt)))
        + length (errors (trace (run_batch Script.models Sample.project_first_corrupt)))
        + length [small_out])%nat.
Proof.
  assert (Hret : result (run_batch Script.models Sample.project_first_corrupt)
                 = Return [small_out])
    by (vm_compute; reflexivity).
  destruct (every_checkpoint_accounted Sample.cwd Sample.dir_st_size Sample.sample
              Script.models Sample.project_first_corrupt [small_out] Hret)
    as (He & Hn & _).
  split; [exact He | exact Hn].
Defined.

Lemma converted_paths_follow_registry_witness :
  [nano_out; small_out]
    `sublist_of` map (fun p => output_path_of p Script.default_output_dir) Script.models
  /\ length [nano_out; small_out] <= length Script.models.
Proof.
  assert (Hret : result (run_batch Script.models Sample.project)
                 = Return [nano_out; small_out])
    by (vm_compute; reflexivity).
  destruct (converted_paths_follow_registry Sample.cwd Sample.dir_st_size Sample.sample
              Script.models Sample.project [nano_out; small_out] Hret)
    as (Hs & Hl & _).
  split; [exact Hs | exact Hl].
Defined.

Lemma batch_in_two_parts_witness :
  result (for_model_path ([nano] ++ [small]) [] Sample.project)
  = Return ([nano_out] ++ [small_out]).
Proof.
  apply (batch_in_two_parts Sample.cwd Sample.dir_st_size Sample.sample
           [nano] [small] Sample.project [nano_out] [small_out]);
    vm_compute; reflexivity.
Defined.

Lemma blocked_directory_converts_nothing_witness :
  result (run_batch Script.models Sample.project_public_is_file) = Return []
  /\ loads (trace (run_batch Script.models Sample.project_public_is_file)) = [].
Proof.
  apply (blocked_directory_converts_nothing Sample.cwd Sample.dir_st_size Sample.sample).
  right. left. exists "notes". vm_compute; reflexivity.
Defined.

Lemma output_path_from_file_name_witness :
  output_path_of ("api" ++ "/" ++ "yolov8n-pose" ++ "." ++ "pt") "public/models"
  = join "public/models" ("yolov8n-pose" ++ ".onnx")
  /\ output_path_of ("api" ++ "/" ++ "weights") "public/models"
     = join "public/models" ("weights" ++ ".onnx")
  /\ output_path_of ("api" ++ "/" ++ "" ++ "." ++ "hidden") "public/models"
     = join "public/models" (("" ++ "." ++ "hidden") ++ ".onnx").
Proof.
  destruct (output_path_from_file_name "api" "public/models") as (H1 & H2 & H3).
  split; [|split].
  - apply H1; reflexivity.
  - apply H2; reflexivity.
  - apply H3; reflexivity.
Defined.

Lemma trailing_separator_ignored_witness :
  output_path_of nano ("public/models" ++ "/") = output_path_of nano "public/models".
Proof.
  apply trailing_separator_ignored; [discriminate | reflexivity].
Defined.

Lemma library_calls_in_order_witness :
  calls (trace (convert nano "public/models" Sample.project))
  = [Call_makedirs "public/models"; Call_YOLO nano;
     Call_export Script.export_args;
     Call_move nano_onnx (output_path_of nano "public/models");
     Call_getsize (output_path_of nano "public/models")].
Proof.
  pose (o := exported nano "public/models" Sample.project).
  assert (Ho : o = Some (nano_onnx, from_option snd ∅ o))
    by (apply option_pair_eta; vm_compute; reflexivity).
  apply (proj1 (library_calls_in_order Sample.cwd Sample.dir_st_size Sample.sample
                  nano "public/models" Sample.project)
           nano_onnx (from_option snd ∅ o) Ho).
  vm_compute; reflexivity.
Defined.

Lemma convert_touches_two_places_witness :
  exists s d real_dst,
    Disk.locate Sample.cwd
      (from_option snd ∅ (exported nano "public/models" Sample.project)) nano_onnx
    = Some s
    /\ Disk.locate Sample.cwd
         (from_option snd ∅ (exported nano "public/models" Sample.project)) real_dst
       = Some d
    /\ (real_dst = nano_out \/ real_dst = join nano_out (shutil_basename nano_onnx))
    /\ forall l, l <> s -> l <> d ->
         disk (convert nano "public/models" Sample.project) !! l
         = from_option snd ∅ (exported nano "public/models" Sample.project) !! l.
Proof.
  pose (o := exported nano "public/models" Sample.project).
  assert (Ho : o = Some (nano_onnx, from_option snd ∅ o))
    by (apply option_pair_eta; vm_compute; reflexivity).
  assert (Hfile : os_path_isdir Sample.cwd (from_option snd ∅ o) nano_onnx = false)
    by (vm_compute; reflexivity).
  assert (Hret : result (convert nano "public/models" Sample.project) = Return nano_out)
    by (vm_compute; reflexivity).
  exact (convert_touches_two_places Sample.cwd Sample.dir_st_size Sample.sample
           nano "public/models" Sample.project nano_onnx (from_option snd ∅ o)
           nano_out Ho Hfile Hret).
Defined.

End MoreRuns.
